(** * DataValidationSuite: the validation engine

    A shallow embedding of [scripts/rule_based_validation.py]
    ([generate_html_section], [apply_json_rules], [validate_dataset]) and the
    properties of its detectors, of the aggregation and of its errors.

    Modelling conventions.
    - A pandas [DataFrame] is a list of column names, their dtypes and a
      list of rows; a row carries its index label and its cells.  Cells are
      always addressed by column name, as pandas does; a column a row does
      not have reads as missing.
    - Numbers ([int64] and [float64] values) are exact rationals: rounding
      of floating point arithmetic and infinities are not modelled.  The
      standard deviation is the real square root of the sample variance;
      comparisons with it are decided on squares.
    - A cell is missing, a number or a string.  The missing markers [NaN]
      and [pd.NA] are one value [NA]; columns of booleans are not modelled.
    - Python exceptions are the [Raise] results of an error monad.
    - The input file is given tokenised: a header and the fields of each
      line.  Column names are taken as pandas delivers them.
    - The two scikit-learn estimators, the JSON parser, the file system and
      the number grammar of the CSV reader are not part of the repository:
      they are the fields of an environment [Env], and the theorems hold
      for every environment.  A rule set has the documented shape: [min]
      and [max] are numbers, [allowed] is a list of numbers and strings. *)

From Stdlib Require Import String Ascii Bool Arith ZArith QArith Lia.
From Stdlib Require Import Reals Qreals Psatz List.
Import ListNotations.

Local Open Scope string_scope.
Local Open Scope list_scope.
Local Open Scope nat_scope.

(** ** Exceptions and the error monad *)

Inductive exn : Type :=
| EmptyDataError
| ParserError
| KeyError (key : string)
| TypeError
| ValueError
| AttributeError
| JSONDecodeError
| EstimatorError (msg : string).

Inductive result (A : Type) : Type :=
| Ok (a : A)
| Raise (e : exn).

Arguments Ok {A} a.
Arguments Raise {A} e.

Definition bind {A B : Type} (m : result A) (k : A -> result B) : result B :=
  match m with
  | Ok a => k a
  | Raise e => Raise e
  end.

Notation "x <- m ;; k" := (bind m (fun x => k))
  (at level 61, m at next level, right associativity).

Definition raises {A : Type} (m : result A) : Prop :=
  exists e, m = Raise e.

Fixpoint mapM {A B : Type} (f : A -> result B) (l : list A) : result (list B) :=
  match l with
  | [] => Ok []
  | a :: l' => b <- f a ;; bs <- mapM f l' ;; Ok (b :: bs)
  end.

(** ** Cells, rows and frames *)

Inductive dtype : Type := Int64 | Float64 | Object.

Inductive cell : Type :=
| NA
| Num (q : Q)
| Text (s : string).

Record row : Type := Row { index : nat; cells : list cell }.

Record DataFrame : Type := Frame {
  columns : list string;
  dtypes : list dtype;
  rows : list row
}.

(** [pd.DataFrame()] *)
Definition empty_frame : DataFrame := Frame [] [] [].

(** [df.empty]: some axis has length zero. *)
Definition empty (f : DataFrame) : bool :=
  (length (rows f) =? 0) || (length (columns f) =? 0).

Definition len (f : DataFrame) : nat := length (rows f).

Definition mem (c : string) (cols : list string) : bool :=
  existsb (String.eqb c) cols.

Fixpoint col_index (c : string) (cols : list string) : option nat :=
  match cols with
  | [] => None
  | c' :: cols' =>
      if String.eqb c c' then Some 0 else option_map S (col_index c cols')
  end.

(** The cell of a row under a column name; a column the row does not have
    reads as missing, which is what [pd.concat] fills in. *)
Definition cell_of (cols : list string) (c : string) (cs : list cell) : cell :=
  match col_index c cols with
  | Some i => nth i cs NA
  | None => NA
  end.

Definition dtype_of (f : DataFrame) (c : string) : dtype :=
  match col_index c (columns f) with
  | Some i => nth i (dtypes f) Object
  | None => Object
  end.

(** The values of a row of [f], in column order. *)
Definition values (f : DataFrame) (r : row) : list cell :=
  map (fun c => cell_of (columns f) c (cells r)) (columns f).

(** [df[col]] for a column of [df]. *)
Definition column (f : DataFrame) (c : string) : list cell :=
  map (fun r => cell_of (columns f) c (cells r)) (rows f).

(** [df[col]] for a column that may be absent. *)
Definition getitem (f : DataFrame) (c : string) : result (list cell) :=
  if mem c (columns f) then Ok (column f c) else Raise (KeyError c).

Definition isnull (c : cell) : bool :=
  match c with
  | NA => true
  | _ => false
  end.

Definition Qlt_bool (x y : Q) : bool := negb (Qle_bool y x).

Definition cell_eqb (a b : cell) : bool :=
  match a, b with
  | NA, NA => true
  | Num x, Num y => Qeq_bool x y
  | Text s, Text t => String.eqb s t
  | _, _ => false
  end.

Fixpoint cells_eqb (a b : list cell) : bool :=
  match a, b with
  | [], [] => true
  | x :: a', y :: b' => cell_eqb x y && cells_eqb a' b'
  | _, _ => false
  end.

(** [df[mask]] for a boolean Series computed from [df] itself. *)
Fixpoint select {A : Type} (mask : list bool) (l : list A) : list A :=
  match mask, l with
  | b :: mask', a :: l' => if b then a :: select mask' l' else select mask' l'
  | _, _ => []
  end.

Definition loc_mask (mask : list bool) (f : DataFrame) : DataFrame :=
  Frame (columns f) (dtypes f) (select mask (rows f)).

(** [df[mask]] for a boolean ndarray: pandas refuses a wrong length. *)
Definition getitem_mask (mask : list bool) (f : DataFrame) : result DataFrame :=
  if length mask =? length (rows f) then Ok (loc_mask mask f)
  else Raise ValueError.

Definition reindex (old new : list string) (r : row) : row :=
  Row (index r) (map (fun c => cell_of old c (cells r)) new).

(** [df[cols]] for a list of columns of [df]. *)
Definition select_columns (f : DataFrame) (cols : list string) : DataFrame :=
  Frame cols (map (dtype_of f) cols) (map (reindex (columns f) cols) (rows f)).

(** [pd.concat([f, g])]: rows of [f] then rows of [g], over the union of the
    columns in order of first appearance, absent cells missing. *)
Definition concat (f g : DataFrame) : DataFrame :=
  let cols :=
    columns f ++ filter (fun c => negb (mem c (columns f))) (columns g) in
  Frame cols
        (map (fun c => if mem c (columns f) then dtype_of f c else dtype_of g c)
             cols)
        (map (reindex (columns f) cols) (rows f)
         ++ map (reindex (columns g) cols) (rows g)).

(** [f.assign(issue=lbl)], also [f['issue'] = lbl] on a copy: the column is
    overwritten when [f] has it and appended otherwise. *)
Definition assign_issue (lbl : string) (f : DataFrame) : DataFrame :=
  let cols :=
    if mem "issue" (columns f) then columns f else columns f ++ ["issue"] in
  Frame cols
        (map (fun c => if String.eqb c "issue" then Object else dtype_of f c)
             cols)
        (map (fun r =>
                Row (index r)
                    (map (fun c => if String.eqb c "issue" then Text lbl
                                   else cell_of (columns f) c (cells r))
                         cols))
             (rows f)).

(** [df.dropna()] *)
Definition dropna (f : DataFrame) : DataFrame :=
  loc_mask (map (fun r => negb (existsb isnull (values f r))) (rows f)) f.

(** [df.duplicated()]: a row is marked when an earlier row has the same
    values in all columns; missing cells compare equal. *)
Fixpoint duplicated_from (seen : list (list cell)) (vs : list (list cell))
  : list bool :=
  match vs with
  | [] => []
  | v :: vs' =>
      existsb (cells_eqb v) seen :: duplicated_from (seen ++ [v]) vs'
  end.

Definition duplicated (f : DataFrame) : list bool :=
  duplicated_from [] (map (values f) (rows f)).

(** [df.drop_duplicates()] *)
Definition drop_duplicates (f : DataFrame) : DataFrame :=
  loc_mask (map negb (duplicated f)) f.

(** ** Series *)

Record Series : Type := MkSeries { s_dtype : dtype; s_values : list cell }.

(** [df[col]] for a column of [df]. *)
Definition getcol (f : DataFrame) (c : string) : Series :=
  MkSeries (dtype_of f c) (column f c).

Definition is_numeric (d : dtype) : bool :=
  match d with
  | Int64 | Float64 => true
  | Object => false
  end.

Definition is_object (d : dtype) : bool :=
  match d with
  | Object => true
  | _ => false
  end.

(** Comparison of a Series with a number.  On a numeric dtype it is the
    array comparison, where missing compares false.  On [object] it is
    Python's comparison cell by cell, which skips missing cells and raises
    [TypeError] on a string. *)
Definition num_cmp (op : Q -> Q -> bool) (v : Q) (c : cell) : bool :=
  match c with
  | Num x => op x v
  | _ => false
  end.

Definition obj_cmp (op : Q -> Q -> bool) (v : Q) (c : cell) : result bool :=
  match c with
  | NA => Ok false
  | Num x => Ok (op x v)
  | Text _ => Raise TypeError
  end.

Definition series_cmp (op : Q -> Q -> bool) (s : Series) (v : Q)
  : result (list bool) :=
  if is_numeric (s_dtype s) then Ok (map (num_cmp op v) (s_values s))
  else mapM (obj_cmp op v) (s_values s).

Definition Qgt_bool (x y : Q) : bool := Qlt_bool y x.

Definition series_lt : Series -> Q -> result (list bool) := series_cmp Qlt_bool.
Definition series_gt : Series -> Q -> result (list bool) := series_cmp Qgt_bool.

(** [s.mean()] and [s.std()] skip missing values; [None] is [NaN].  The
    standard deviation is the square root of the sample variance [var]
    (one degree of freedom removed), undefined below two values. *)
Definition nums (l : list cell) : list Q :=
  flat_map (fun c => match c with Num q => [q] | _ => [] end) l.

Definition Qsum (l : list Q) : Q := fold_right Qplus 0%Q l.

Definition Qnat (n : nat) : Q := inject_Z (Z.of_nat n).

Definition mean (s : Series) : option Q :=
  match nums (s_values s) with
  | [] => None
  | xs => Some (Qsum xs / Qnat (length xs))%Q
  end.

Definition sqdev (m x : Q) : Q := ((x - m) * (x - m))%Q.

Definition var (s : Series) : option Q :=
  let xs := nums (s_values s) in
  match mean s with
  | None => None
  | Some m =>
      if length xs <=? 1 then None
      else Some (Qsum (map (sqdev m) xs) / Qnat (length xs - 1))%Q
  end.

(** [x > mean + 3*std] and [x < mean - 3*std] with [std = sqrt v], decided
    on the squares: [3*std] is not negative, so [x - m > 3*std] holds iff
    [x > m] and [(x - m)^2 > 9*v]. *)
Definition above_3sigma (m v x : Q) : bool :=
  Qlt_bool m x && Qlt_bool (9 * v) (sqdev m x).

Definition below_3sigma (m v x : Q) : bool :=
  Qlt_bool x m && Qlt_bool (9 * v) (sqdev m x).

(** [(s > mean + 3*std) | (s < mean - 3*std)]; every comparison with [NaN]
    is false. *)
Definition outlier_cell (m v : option Q) (c : cell) : bool :=
  match m, v, c with
  | Some m, Some v, Num x => above_3sigma m v x || below_3sigma m v x
  | _, _, _ => false
  end.

Definition outlier_mask (s : Series) : list bool :=
  map (outlier_cell (mean s) (var s)) (s_values s).

(** ** Rule sets

    The rule-set file maps a column name to an object with the optional
    keys [min] and [max] (numbers) and [allowed] (a list of numbers and
    strings).  [RuleSet] lists the items of the parsed dictionary in
    insertion order. *)

Inductive jscalar : Type :=
| JNum (q : Q)
| JStr (s : string).

Record Rule : Type := MkRule {
  rule_min : option Q;
  rule_max : option Q;
  rule_allowed : option (list jscalar)
}.

Definition RuleSet : Type := list (string * Rule).

Definition matches (c : cell) (j : jscalar) : bool :=
  match c, j with
  | Num x, JNum q => Qeq_bool x q
  | Text s, JStr t => String.eqb s t
  | _, _ => false
  end.

(** [s.isin(allowed)] *)
Definition isin (s : Series) (allowed : list jscalar) : list bool :=
  map (fun c => existsb (matches c) allowed) (s_values s).

(** ** The environment *)

Definition matrix : Type := list (list Q).

Record Env : Type := MkEnv {
  (** the number grammar of the CSV reader: whether the token is a number,
      whether it is an integer, and its value *)
  lex_number : string -> option (bool * Q);
  (** [Path(p).exists()] *)
  path_exists : string -> bool;
  (** [json.load] on the file at a path *)
  json_load : string -> result RuleSet;
  (** [IsolationForest(contamination, random_state).fit_predict(X)]; without
      a seed the estimator draws from the global generator, whose state is
      the third argument *)
  IsolationForest_fit_predict :
    Q -> option Z -> N -> matrix -> result (list Z);
  (** [LocalOutlierFactor(n_neighbors, contamination).fit_predict(X)] *)
  LocalOutlierFactor_fit_predict : nat -> Q -> matrix -> result (list Z)
}.

(** ** Reading and normalising the dataset *)

(** The tokenised CSV file: the header and the fields of each line. *)
Record RawTable : Type := MkRaw {
  header : list string;
  lines : list (list string)
}.

(** The markers pandas reads as missing by default; [na_values] adds to
    them. *)
Definition STR_NA_VALUES : list string :=
  [""; "#N/A"; "#N/A N/A"; "#NA"; "-1.#IND"; "-1.#QNAN"; "-NaN"; "-nan";
   "1.#IND"; "1.#QNAN"; "<NA>"; "N/A"; "NA"; "NULL"; "NaN"; "None"; "n/a";
   "nan"; "null"].

(** A field of a line, [None] when it is a missing marker or when the line
    is shorter than the header. *)
Definition token (na_values : list string) (line : list string) (j : nat)
  : option string :=
  match nth_error line j with
  | Some s => if mem s (na_values ++ STR_NA_VALUES) then None else Some s
  | None => None
  end.

Definition lexes (E : Env) (t : option string) : bool :=
  match t with
  | None => true
  | Some s => match lex_number E s with Some _ => true | None => false end
  end.

Definition lexes_int (E : Env) (t : option string) : bool :=
  match t with
  | None => false
  | Some s => match lex_number E s with Some (b, _) => b | None => false end
  end.

(** Type inference of a column: integers without a gap are [int64], numbers
    are [float64], anything else is [object]; a column without rows is
    [object]. *)
Definition infer_dtype (E : Env) (toks : list (option string)) : dtype :=
  if length toks =? 0 then Object
  else if forallb (lexes E) toks then
         if forallb (lexes_int E) toks then Int64 else Float64
       else Object.

Definition parse_cell (E : Env) (d : dtype) (t : option string) : cell :=
  match t with
  | None => NA
  | Some s =>
      if is_numeric d then
        match lex_number E s with
        | Some (_, q) => Num q
        | None => Text s
        end
      else Text s
  end.

Definition read_csv (E : Env) (na_values : list string) (raw : RawTable)
  : result DataFrame :=
  let n := length (header raw) in
  if n =? 0 then Raise EmptyDataError
  else if existsb (fun l => n <? length l) (lines raw) then Raise ParserError
  else
    let tok := token na_values in
    let dts :=
      map (fun j => infer_dtype E (map (fun l => tok l j) (lines raw)))
          (seq 0 n) in
    Ok (Frame (header raw) dts
              (map (fun il =>
                      Row (fst il)
                          (map (fun j => parse_cell E (nth j dts Object)
                                                    (tok (snd il) j))
                               (seq 0 n)))
                   (combine (seq 0 (length (lines raw))) (lines raw)))).

(** Python's [\s] on the ASCII range. *)
Definition is_space (a : ascii) : bool :=
  let n := nat_of_ascii a in
  ((9 <=? n) && (n <=? 13)) || ((28 <=? n) && (n <=? 32)).

(** The regular expression [^\s*$]. *)
Fixpoint blank (s : string) : bool :=
  match s with
  | EmptyString => true
  | String a s' => is_space a && blank s'
  end.

Definition blank_to_na (c : cell) : cell :=
  match c with
  | Text s => if blank s then NA else c
  | _ => c
  end.

(** [df.replace(r'^\s*$', pd.NA, regex=True)] *)
Definition replace_blank (f : DataFrame) : DataFrame :=
  Frame (columns f) (dtypes f)
        (map (fun r => Row (index r) (map blank_to_na (cells r))) (rows f)).

(** Lines 60-61 of [validate_dataset]. *)
Definition load_dataset (E : Env) (raw : RawTable) : result DataFrame :=
  df <- read_csv E [""; "NA"; "N/A"; "-"] raw ;;
  Ok (replace_blank df).

(** ** The detectors *)

(** [df.select_dtypes(include=...).columns] *)
Definition select_dtypes (p : dtype -> bool) (f : DataFrame) : list string :=
  map fst (filter (fun cd => p (snd cd)) (combine (columns f) (dtypes f))).

(** [issues_summary]: a dictionary in insertion order. *)
Definition Summary : Type := list (string * nat).

Fixpoint dict_set (k : string) (v : nat) (d : Summary) : Summary :=
  match d with
  | [] => [(k, v)]
  | (k', v') :: d' =>
      if String.eqb k k' then (k, v) :: d' else (k', v') :: dict_set k v d'
  end.

Definition keys (d : Summary) : list string := map fst d.

Record State : Type := MkState {
  bad_rows : DataFrame;
  issues_summary : Summary
}.

Definition initial : State := MkState empty_frame [].

(** The block every detector of [validate_dataset] ends with:
    [if not hits.empty: bad_rows = pd.concat([bad_rows,
    hits.assign(issue=label)]); issues_summary[category] = len(hits)]. *)
Definition record_issue (category label : string) (hits : DataFrame)
  (st : State) : State :=
  if empty hits then st
  else MkState (concat (bad_rows st) (assign_issue label hits))
               (dict_set category (len hits) (issues_summary st)).

Fixpoint foldM {A S : Type} (f : A -> S -> result S) (l : list A) (s : S)
  : result S :=
  match l with
  | [] => Ok s
  | a :: l' => s' <- f a s ;; foldM f l' s'
  end.

(** [df[df.isnull().any(axis=1)]] *)
Definition missing_rows (df : DataFrame) : DataFrame :=
  loc_mask (map (fun r => existsb isnull (values df r)) (rows df)) df.

(** [df[df.duplicated()]] *)
Definition duplicates (df : DataFrame) : DataFrame :=
  loc_mask (duplicated df) df.

Definition negative_values (df : DataFrame) (col : string) (st : State)
  : result State :=
  mask <- series_lt (getcol df col) 0%Q ;;
  Ok (record_issue ("Negative Values (" ++ col ++ ")") (col ++ "_negative")
                   (loc_mask mask df) st).

Definition outliers_of (df : DataFrame) (col : string) : DataFrame :=
  loc_mask (outlier_mask (getcol df col)) df.

Definition outliers (df : DataFrame) (col : string) (st : State)
  : result State :=
  Ok (record_issue ("Outliers (" ++ col ++ ")") (col ++ "_outlier")
                   (outliers_of df col) st).

Definition invalid_categories (df : DataFrame) (col : string) (st : State)
  : result State :=
  Ok (record_issue ("Invalid Categories (" ++ col ++ ")")
                   (col ++ "_invalid_category")
                   (loc_mask (map isnull (column df col)) df) st).

(** *** The anomaly detector *)

Definition contamination : Q := (1 # 100)%Q.
Definition random_state : Z := 42%Z.
Definition n_neighbors : nat := 20.

Definition cell_value (c : cell) : Q :=
  match c with
  | Num q => q
  | _ => 0%Q
  end.

(** The array the estimators are fitted on. *)
Definition to_numpy (f : DataFrame) : matrix :=
  map (fun r => map cell_value (values f r)) (rows f).

(** [labels == -1] *)
Definition is_outlier_label (labels : list Z) : list bool :=
  map (Z.eqb (-1)) labels.

Definition ml_input (df : DataFrame) (numeric_cols : list string) : DataFrame :=
  dropna (select_columns df numeric_cols).

Definition ml_outliers (E : Env) (g : N) (ml_df : DataFrame)
  : result DataFrame :=
  iso_labels <- IsolationForest_fit_predict E contamination
                  (Some random_state) g (to_numpy ml_df) ;;
  iso_outliers <- getitem_mask (is_outlier_label iso_labels) ml_df ;;
  lof_labels <- LocalOutlierFactor_fit_predict E n_neighbors contamination
                  (to_numpy ml_df) ;;
  lof_outliers <- getitem_mask (is_outlier_label lof_labels) ml_df ;;
  Ok (drop_duplicates (concat iso_outliers lof_outliers)).

Definition ml_anomalies (E : Env) (g : N) (df : DataFrame)
  (numeric_cols : list string) (st : State) : result State :=
  if 0 <? length numeric_cols then
    let ml_df := ml_input df numeric_cols in
    if negb (empty ml_df) then
      out <- ml_outliers E g ml_df ;;
      Ok (record_issue "ML Anomalies" "ML_anomaly" out st)
    else Ok st
  else Ok st.

(** *** The declarative-rule detector *)

(** One check of [apply_json_rules]: [invalid = df[mask].copy(); if not
    invalid.empty: invalid['issue'] = label; violations =
    pd.concat([violations, invalid])]. *)
Definition add_violations (label : string) (df : DataFrame) (mask : list bool)
  (violations : DataFrame) : DataFrame :=
  let invalid := loc_mask mask df in
  if empty invalid then violations
  else concat violations (assign_issue label invalid).

Definition check_min (df : DataFrame) (col : string) (rule : Rule)
  (violations : DataFrame) : result DataFrame :=
  match rule_min rule with
  | Some lo =>
      mask <- series_lt (getcol df col) lo ;;
      Ok (add_violations (col ++ "_below_min") df mask violations)
  | None => Ok violations
  end.

Definition check_max (df : DataFrame) (col : string) (rule : Rule)
  (violations : DataFrame) : result DataFrame :=
  match rule_max rule with
  | Some hi =>
      mask <- series_gt (getcol df col) hi ;;
      Ok (add_violations (col ++ "_above_max") df mask violations)
  | None => Ok violations
  end.

Definition check_allowed (df : DataFrame) (col : string) (rule : Rule)
  (violations : DataFrame) : result DataFrame :=
  match rule_allowed rule with
  | Some allowed =>
      Ok (add_violations (col ++ "_invalid_value") df
                         (map negb (isin (getcol df col) allowed)) violations)
  | None => Ok violations
  end.

Definition apply_rule (df : DataFrame) (item : string * Rule)
  (violations : DataFrame) : result DataFrame :=
  let (col, rule) := item in
  if negb (mem col (columns df)) then Ok violations
  else
    v1 <- check_min df col rule violations ;;
    v2 <- check_max df col rule v1 ;;
    check_allowed df col rule v2.

Definition apply_json_rules (df : DataFrame) (rules : RuleSet)
  : result DataFrame :=
  foldM (apply_rule df) rules empty_frame.

(** [rules_path and Path(rules_path).exists()]: [None] and the empty string
    are false in Python. *)
Definition rules_available (E : Env) (rules_path : option string) : bool :=
  match rules_path with
  | Some p => negb (String.eqb p "") && path_exists E p
  | None => false
  end.

(** The block [# --- JSON Rules ---]; it yields [json_rows] and the state. *)
Definition json_rules (E : Env) (df : DataFrame) (rules_path : option string)
  (st : State) : result (DataFrame * State) :=
  match rules_path with
  | Some p =>
      if rules_available E rules_path then
        rules <- json_load E p ;;
        json_rows <- apply_json_rules df rules ;;
        if empty json_rows then Ok (json_rows, st)
        else Ok (json_rows,
                 MkState (concat (bad_rows st) json_rows)
                         (dict_set "JSON Rule Violations" (len json_rows)
                                   (issues_summary st)))
      else Ok (empty_frame, st)
  | None => Ok (empty_frame, st)
  end.

(** All the detectors, in the order of the source. *)
Definition run_detectors (E : Env) (g : N) (df : DataFrame)
  (rules_path : option string) : result (DataFrame * State) :=
  let st := record_issue "Missing Values" "missing" (missing_rows df) initial in
  let st := record_issue "Duplicate Rows" "duplicate" (duplicates df) st in
  let numeric_cols := select_dtypes is_numeric df in
  st <- foldM (negative_values df) numeric_cols st ;;
  st <- foldM (outliers df) numeric_cols st ;;
  let cat_cols := select_dtypes is_object df in
  st <- foldM (invalid_categories df) cat_cols st ;;
  st <- ml_anomalies E g df numeric_cols st ;;
  json_rules E df rules_path st.

(** ** The report *)

Definition MAX_DISPLAY_ROWS : nat := 5.

(** A section of the HTML report, without its markup: the title, the row
    count shown next to it, the [Total] line, the table of the first rows
    and the note that more rows exist.  A section without a table is the
    placeholder "No ... found." *)
Record section : Type := MkSection {
  title : string;
  shown_rows : option nat;
  count_info : option nat;
  table : option DataFrame;
  more_rows_note : bool
}.

Definition generate_html_section (ttl : string) (df : DataFrame)
  (issue_count : nat) : section :=
  let info := if issue_count =? 0 then None else Some issue_count in
  if empty df then MkSection ttl None info None false
  else
    MkSection ttl (Some (len df)) info
              (Some (Frame (columns df) (dtypes df)
                           (firstn MAX_DISPLAY_ROWS (rows df))))
              (MAX_DISPLAY_ROWS <? len df).

(** Substring test: [str.contains] with a pattern free of metacharacters. *)
Fixpoint contains (pat s : string) : bool :=
  String.prefix pat s ||
  match s with
  | EmptyString => false
  | String _ s' => contains pat s'
  end.

(** [s.str.contains(pat)] as a mask; it is not one when a cell is not a
    string. *)
Definition str_contains (pat : string) (s : list cell) : result (list bool) :=
  mapM (fun c => match c with
                 | Text t => Ok (contains pat t)
                 | _ => Raise ValueError
                 end) s.

(** [sum(mask)] *)
Definition count_true (mask : list bool) : nat :=
  length (filter (fun b => b) mask).

Definition label_section (ttl pat : string) (bad : DataFrame) : result section :=
  issue <- getitem bad "issue" ;;
  mask <- str_contains pat issue ;;
  Ok (generate_html_section ttl (loc_mask mask bad) (count_true mask)).

Definition ml_section (bad : DataFrame) : result section :=
  issue <- getitem bad "issue" ;;
  let mask := map (cell_eqb (Text "ML_anomaly")) issue in
  Ok (generate_html_section "ML Anomalies" (loc_mask mask bad)
                            (count_true mask)).

(** The block [# --- Save HTML Report ---]: the sections of the document
    that is written to the report file. *)
Definition html_report (df bad json_rows : DataFrame) : result (list section) :=
  let s1 := generate_html_section "Missing Values" (missing_rows df)
                                  (len (missing_rows df)) in
  let s2 := generate_html_section "Duplicate Rows" (duplicates df)
                                  (len (duplicates df)) in
  s3 <- label_section "Negative Values" "_negative" bad ;;
  s4 <- label_section "Outliers" "_outlier" bad ;;
  s5 <- label_section "Invalid Categories" "_invalid_category" bad ;;
  s6 <- ml_section bad ;;
  let s7 := generate_html_section "JSON Rule Violations" json_rows
                                  (len json_rows) in
  Ok [s1; s2; s3; s4; s5; s6; s7].

(** ** The engine

    [validate_dataset g raw rules_path]: [raw] is the tokenised content of
    the file at [file_path], [g] the state of the global random generator
    when the call starts.  The result is [(bad_rows, report, issues_summary)],
    the report being the document written to [report_file]. *)
Definition validate_dataset (E : Env) (g : N) (raw : RawTable)
  (rules_path : option string)
  : result (DataFrame * list section * Summary) :=
  df <- load_dataset E raw ;;
  js <- run_detectors E g df rules_path ;;
  let (json_rows, st) := js in
  report <- html_report df (bad_rows st) json_rows ;;
  Ok (bad_rows st, report, issues_summary st).

(** ** A number grammar for the examples

    Optional sign, digits, optional fraction: the decimal literals of the
    sample data. *)

Definition digit (a : ascii) : option Z :=
  let n := nat_of_ascii a in
  if (48 <=? n) && (n <=? 57) then Some (Z.of_nat (n - 48)) else None.

Fixpoint lex_frac (s : string) (num : Z) (den : positive) : option Q :=
  match s with
  | EmptyString => Some (num # den)%Q
  | String a s' =>
      match digit a with
      | Some d => lex_frac s' (10 * num + d)%Z (10 * den)%positive
      | None => None
      end
  end.

Fixpoint lex_int (s : string) (acc : Z) : option (bool * Q) :=
  match s with
  | EmptyString => Some (true, inject_Z acc)
  | String "." s' => option_map (fun q => (false, q)) (lex_frac s' acc 1)
  | String a s' =>
      match digit a with
      | Some d => lex_int s' (10 * acc + d)%Z
      | None => None
      end
  end.

Definition lex_decimal (s : string) : option (bool * Q) :=
  match s with
  | EmptyString => None
  | String "-" (String a s') =>
      match digit a with
      | Some d =>
          option_map (fun bq => (fst bq, (- snd bq)%Q)) (lex_int s' d)
      | None => None
      end
  | String a s' =>
      match digit a with
      | Some d => lex_int s' d
      | None => None
      end
  end.

(** ** Reading the results *)

(** The cell of row [r] of frame [f] under column [c]. *)
Definition cell_at (f : DataFrame) (r : row) (c : string) : cell :=
  cell_of (columns f) c (cells r).

(** The rows of a frame of flagged rows as pairs of the index label of the
    row and its issue label. *)
Definition hits (f : DataFrame) : list (nat * cell) :=
  map (fun r => (index r, cell_at f r "issue")) (rows f).


(** Two rows of [f] are identical in all columns. *)
Definition same_values (f : DataFrame) (r1 r2 : row) : bool :=
  cells_eqb (values f r1) (values f r2).

(** The columns of [pd.concat([f, g])] and of [f.assign(issue=...)]. *)
Definition concat_columns (f g : DataFrame) : list string :=
  columns f ++ filter (fun c => negb (mem c (columns f))) (columns g).

Definition assign_columns (f : DataFrame) : list string :=
  if mem "issue" (columns f) then columns f else columns f ++ ["issue"].

(** ** The rule detector, as the specification words it

    For a column present in the dataset and in the rule set, the rows whose
    value is strictly below [min], then the rows whose value is strictly
    above [max], then the rows whose value is not in [allowed], each under
    its own label; the checks do not exclude one another. *)

Definition strictly_below (lo : Q) (c : cell) : bool := num_cmp Qlt_bool lo c.

Definition strictly_above (hi : Q) (c : cell) : bool := num_cmp Qgt_bool hi c.

Definition not_allowed (allowed : list jscalar) (c : cell) : bool :=
  negb (existsb (matches c) allowed).

Definition labelled (lbl : string) (rs : list row) : list (nat * cell) :=
  map (fun r => (index r, Text lbl)) rs.

Definition rows_where (df : DataFrame) (col : string) (p : cell -> bool)
  : list row :=
  filter (fun r => p (cell_at df r col)) (rows df).

Definition rule_hits (df : DataFrame) (item : string * Rule)
  : list (nat * cell) :=
  let (col, rule) := item in
  if mem col (columns df) then
    match rule_min rule with
    | Some lo =>
        labelled (col ++ "_below_min") (rows_where df col (strictly_below lo))
    | None => []
    end
    ++ match rule_max rule with
       | Some hi =>
           labelled (col ++ "_above_max")
                    (rows_where df col (strictly_above hi))
       | None => []
       end
    ++ match rule_allowed rule with
       | Some allowed =>
           labelled (col ++ "_invalid_value")
                    (rows_where df col (not_allowed allowed))
       | None => []
       end
  else [].



Definition price_rules : RuleSet :=
  [("price", MkRule (Some 0%Q) (Some (1000 # 1)%Q) None)].

(** ** The three-sigma rule

    The rule over the reals, with the standard deviation [sqrt v] of the
    sample variance [v]. *)


(** The test [outliers_of] applies to a row. *)
Definition is_outlier (df : DataFrame) (col : string) (r : row) : bool :=
  outlier_cell (mean (getcol df col)) (var (getcol df col)) (cell_at df r col).



(** ** The issue counts, as the specification words them

    The categories in their fixed order, each with the number of rows its
    detector flags. *)

Definition negative_count (df : DataFrame) (col : string) : nat :=
  match series_lt (getcol df col) 0%Q with
  | Ok mask => length (select mask (rows df))
  | Raise _ => 0
  end.

Definition outlier_count (df : DataFrame) (col : string) : nat :=
  len (outliers_of df col).

Definition invalid_count (df : DataFrame) (col : string) : nat :=
  length (select (map isnull (column df col)) (rows df)).

Definition ml_count (E : Env) (g : N) (df : DataFrame) : nat :=
  let numeric_cols := select_dtypes is_numeric df in
  if (0 <? length numeric_cols) && negb (empty (ml_input df numeric_cols)) then
    match ml_outliers E g (ml_input df numeric_cols) with
    | Ok out => len out
    | Raise _ => 0
    end
  else 0.

Definition json_count (E : Env) (df : DataFrame) (rules_path : option string)
  : nat :=
  match rules_path with
  | Some p =>
      if rules_available E rules_path then
        match rules <- json_load E p ;; apply_json_rules df rules with
        | Ok v => len v
        | Raise _ => 0
        end
      else 0
  | None => 0
  end.

Definition negative_entry (df : DataFrame) (col : string) : string * nat :=
  (("Negative Values (" ++ col ++ ")")%string, negative_count df col).

Definition outlier_entry (df : DataFrame) (col : string) : string * nat :=
  (("Outliers (" ++ col ++ ")")%string, outlier_count df col).

Definition invalid_entry (df : DataFrame) (col : string) : string * nat :=
  (("Invalid Categories (" ++ col ++ ")")%string, invalid_count df col).

Definition categories (E : Env) (g : N) (df : DataFrame)
  (rules_path : option string) : Summary :=
  [("Missing Values", len (missing_rows df));
   ("Duplicate Rows", len (duplicates df))]
  ++ map (negative_entry df) (select_dtypes is_numeric df)
  ++ map (outlier_entry df) (select_dtypes is_numeric df)
  ++ map (invalid_entry df) (select_dtypes is_object df)
  ++ [("ML Anomalies", ml_count E g df);
      ("JSON Rule Violations", json_count E df rules_path)].

Definition positive (kv : string * nat) : bool := 0 <? snd kv.

(** What a detector does to the counts. *)
Definition add_entry (d : Summary) (kv : string * nat) : Summary :=
  if positive kv then dict_set (fst kv) (snd kv) d else d.

(** ** Growth of the flagged rows

    [extends st st']: [st'] is [st] after some detectors have appended
    their rows. *)
Inductive extends (st : State) : State -> Prop :=
| ext_refl : extends st st
| ext_record (st' : State) (category label : string) (found : DataFrame) :
    extends st st' -> extends st (record_issue category label found st')
| ext_concat (st' : State) (v : DataFrame) (d : Summary) :
    extends st st' -> empty v = false ->
    extends st (MkState (concat (bad_rows st') v) d).

(** ** An environment for the examples

    Decimal literals; a file system with a well-formed rule file
    [rules.json] and a malformed one [broken.json]; an isolation forest that
    flags nothing when it is seeded and follows the global generator when it
    is not; a local outlier factor that cannot run on a single sample and
    flags the samples whose first feature exceeds 100. *)

Definition example_forest (c : Q) (seed : option Z) (g : N) (X : matrix)
  : result (list Z) :=
  match seed with
  | Some _ => Ok (map (fun _ => 1%Z) X)
  | None => Ok (map (fun _ => if N.even g then 1%Z else (-1)%Z) X)
  end.

Definition example_lof (k : nat) (c : Q) (X : matrix) : result (list Z) :=
  if length X <=? 1
  then Raise (EstimatorError "Expected n_neighbors < n_samples_fit")
  else Ok (map (fun x => if Qlt_bool (100 # 1) (hd 0%Q x) then (-1)%Z else 1%Z)
               X).

Definition example_env : Env :=
  MkEnv lex_decimal
        (fun p => String.eqb p "rules.json" || String.eqb p "broken.json")
        (fun p => if String.eqb p "broken.json" then Raise JSONDecodeError
                  else Ok price_rules)
        example_forest example_lof.

(** A dataset on which no detector flags a row. *)
Definition clean_table : RawTable := MkRaw ["name"] [["a"]; ["b"]].

(** A dataset with missing cells, a repeated row, a negative price and
    prices outside the bounds of [rules.json]. *)
Definition shop_table : RawTable :=
  MkRaw ["name"; "price"]
        [["a"; "-5"]; ["b"; "500"]; ["c"; "2000"]; ["c"; "2000"];
         [" "; "NA"]; ["N/A"; "-"]].

(** ** Assumptions on the estimators *)

(** An isolation forest that is given a seed does not read the global
    generator. *)
Definition seeded_forest_is_deterministic (E : Env) : Prop :=
  forall c seed g g' X,
    IsolationForest_fit_predict E c (Some seed) g X
    = IsolationForest_fit_predict E c (Some seed) g' X.

(** One of the two algorithms cannot run on the input of the anomaly
    detector. *)
Definition estimator_fails (E : Env) (g : N) (df : DataFrame) : Prop :=
  let X := to_numpy (ml_input df (select_dtypes is_numeric df)) in
  raises (IsolationForest_fit_predict E contamination (Some random_state) g X)
  \/ raises (LocalOutlierFactor_fit_predict E n_neighbors contamination X).

(** A dataset with a single row, complete in its numeric column. *)
Definition single_row_table : RawTable :=
  MkRaw ["name"; "price"] [["a"; "10"]].

Definition single_row_frame : DataFrame :=
  Frame ["name"; "price"] [Object; Int64] [Row 0 [Text "a"; Num (10 # 1)%Q]].

Definition clean_frame : DataFrame :=
  Frame ["name"] [Object] [Row 0 [Text "a"]; Row 1 [Text "b"]].

(** ** Missing markers in the source *)





(** ** Verbatim flagged rows *)

(** Every flagged row is a row of the dataset: some original row has the
    same cell in every column of the dataset. *)
Definition verbatim (df bad : DataFrame) : Prop :=
  forall r, In r (rows bad) ->
    exists r0, In r0 (rows df)
               /\ forall c, In c (columns df) -> cell_at bad r c = cell_at df r0 c.

(** Twenty-two named rows, the prices 1 to 21 and one price of 5000. *)
Definition anomaly_table : RawTable :=
  MkRaw ["name"; "price"]
        [["r01"; "1"]; ["r02"; "2"]; ["r03"; "3"];
         ["r04"; "4"]; ["r05"; "5"]; ["r06"; "6"];
         ["r07"; "7"]; ["r08"; "8"]; ["r09"; "9"];
         ["r10"; "10"]; ["r11"; "11"]; ["r12"; "12"];
         ["r13"; "13"]; ["r14"; "14"]; ["r15"; "15"];
         ["r16"; "16"]; ["r17"; "17"]; ["r18"; "18"];
         ["r19"; "19"]; ["r20"; "20"]; ["r21"; "21"];
         ["r22"; "5000"]].

(** ** Where flagged rows come from *)

(** A property of the rows of a frame, read by index label and by column
    name. *)
Definition all_rows (P : nat -> (string -> cell) -> Prop) (f : DataFrame)
  : Prop :=
  forall r, In r (rows f) -> P (index r) (cell_at f r).

Definition extensional (P : nat -> (string -> cell) -> Prop) : Prop :=
  forall i f1 f2, (forall c, f1 c = f2 c) -> P i f1 -> P i f2.

(** The cells are those of row [r0] of the dataset, the column [issue]
    apart. *)
Definition full_copy (df : DataFrame) (r0 : row) (cf : string -> cell) : Prop :=
  forall c, c <> "issue" -> cf c = cell_at df r0 c.

(** The cells are those of row [r0] in the numeric columns and missing in
    the others. *)
Definition numeric_copy (df : DataFrame) (r0 : row) (cf : string -> cell)
  : Prop :=
  forall c, c <> "issue" ->
    cf c = if mem c (select_dtypes is_numeric df) then cell_at df r0 c else NA.

(** A flagged row is a full copy of the dataset row with its index label,
    or it is labelled [ML_anomaly] and is a copy of the numeric columns. *)
Definition traced (df : DataFrame) (i : nat) (cf : string -> cell) : Prop :=
  exists r0, In r0 (rows df) /\ index r0 = i
             /\ (full_copy df r0 cf
                 \/ (cf "issue" = Text "ML_anomaly" /\ numeric_copy df r0 cf)).

Definition numeric_part (df : DataFrame) (i : nat) (cf : string -> cell) : Prop :=
  exists r0, In r0 (rows df) /\ index r0 = i
             /\ forall c, cf c = if mem c (select_dtypes is_numeric df)
                                 then cell_at df r0 c else NA.

(** ** The flagged rows, detector by detector

    What each detector appends to the flagged rows, as pairs of index label
    and issue label, and their concatenation in the order of detection. *)

Definition has_missing (df : DataFrame) (r : row) : bool :=
  existsb isnull (values df r).

Definition missing_hits (df : DataFrame) : list (nat * cell) :=
  labelled "missing" (filter (has_missing df) (rows df)).

Definition duplicate_hits (df : DataFrame) : list (nat * cell) :=
  labelled "duplicate" (select (duplicated df) (rows df)).

Definition negative_hits (df : DataFrame) (col : string) : list (nat * cell) :=
  labelled (col ++ "_negative") (rows_where df col (strictly_below 0%Q)).

Definition outlier_hits (df : DataFrame) (col : string) : list (nat * cell) :=
  labelled (col ++ "_outlier") (filter (is_outlier df col) (rows df)).

Definition invalid_hits (df : DataFrame) (col : string) : list (nat * cell) :=
  labelled (col ++ "_invalid_category") (rows_where df col isnull).

Definition ml_hits (E : Env) (g : N) (df : DataFrame) : list (nat * cell) :=
  let numeric_cols := select_dtypes is_numeric df in
  if (0 <? length numeric_cols) && negb (empty (ml_input df numeric_cols)) then
    match ml_outliers E g (ml_input df numeric_cols) with
    | Ok out => labelled "ML_anomaly" (rows out)
    | Raise _ => []
    end
  else [].

Definition json_hits (E : Env) (df : DataFrame) (rules_path : option string)
  : list (nat * cell) :=
  match rules_path with
  | Some p =>
      if rules_available E rules_path then
        match json_load E p with
        | Ok rules => flat_map (rule_hits df) rules
        | Raise _ => []
        end
      else []
  | None => []
  end.

Definition detector_hits (E : Env) (g : N) (df : DataFrame)
  (rules_path : option string) : list (nat * cell) :=
  missing_hits df
  ++ duplicate_hits df
  ++ flat_map (negative_hits df) (select_dtypes is_numeric df)
  ++ flat_map (outlier_hits df) (select_dtypes is_numeric df)
  ++ flat_map (invalid_hits df) (select_dtypes is_object df)
  ++ ml_hits E g df
  ++ json_hits E df rules_path.

(** The sum of the counts of a summary. *)
Definition total (d : Summary) : nat := fold_right Nat.add 0 (map snd d).

(** ** The sections of the report *)

Definition is_text (c : cell) : bool :=
  match c with
  | Text _ => true
  | _ => false
  end.

(** The titles of the report, in its order. *)
Definition report_titles : list string :=
  ["Missing Values"; "Duplicate Rows"; "Negative Values"; "Outliers";
   "Invalid Categories"; "ML Anomalies"; "JSON Rule Violations"].


(** ** What can fail *)



(** A rule bounds a text column that holds a value. *)
Definition bounds_text_column (df : DataFrame) (item : string * Rule) : Prop :=
  mem (fst item) (columns df) = true
  /\ is_numeric (dtype_of df (fst item)) = false
  /\ (exists s, In (Text s) (column df (fst item)))
  /\ (rule_min (snd item) <> None \/ rule_max (snd item) <> None).

(** A dataset and a rule set whose bound falls on a text column. *)
Definition name_rules : RuleSet :=
  [("price", MkRule (Some 0%Q) None None);
   ("name", MkRule None (Some (10 # 1)%Q) None)].

(** ** Rows without repetition *)

(** No two of the rows have the same values. *)
Fixpoint distinct_values (vs : list (list cell)) : Prop :=
  match vs with
  | [] => True
  | v :: vs' => (forall w, In w vs' -> cells_eqb v w = false)
                /\ distinct_values vs'
  end.

(** The rows either algorithm labels -1. *)
Definition algorithm_outliers (ml_df : DataFrame) (l1 l2 : list Z) : list row :=
  select (is_outlier_label l1) (rows ml_df)
  ++ select (is_outlier_label l2) (rows ml_df).

(** Three prices, two of them equal and far out. *)
Definition twin_frame : DataFrame :=
  Frame ["price"] [Int64]
        [Row 0 [Num 1%Q]; Row 1 [Num (500 # 1)%Q]; Row 2 [Num (500 # 1)%Q]].

(** The cells are those of a row of the dataset with the index label [i],
    none of them missing, under every numeric column. *)
Definition complete_numeric_copy (df : DataFrame) (i : nat)
  (cf : string -> cell) : Prop :=
  exists r0, In r0 (rows df) /\ index r0 = i
             /\ forall c, In c (select_dtypes is_numeric df) ->
                          cell_at df r0 c <> NA /\ cf c = cell_at df r0 c.

(** A dataset whose second row lacks its price. *)
Definition gap_frame : DataFrame :=
  Frame ["name"; "price"] [Object; Float64]
        [Row 0 [Text "a"; Num 1%Q]; Row 1 [Text "b"; NA];
         Row 2 [Text "c"; Num (500 # 1)%Q]].

(** ** The normalised dataset *)



(** ** Small samples *)



(** ** The dashboard ([app.py])

    The page the dashboard builds from an uploaded file, without its markup:
    the summary cards, the preview of the flagged rows by issue and the data
    of the CSV download. *)

(** The frame [f] with the column [c] left out. *)
Definition without (f : DataFrame) (c : string) : DataFrame :=
  let cols := filter (fun x => negb (String.eqb x c)) (columns f) in
  Frame cols (map (dtype_of f) cols) (map (reindex (columns f) cols) (rows f)).

(** [df.drop(columns=[c])]: a column that is not there is a [KeyError]. *)
Definition drop_column (f : DataFrame) (c : string) : result DataFrame :=
  if mem c (columns f) then Ok (without f c) else Raise (KeyError c).

Definition head (n : nat) (f : DataFrame) : DataFrame :=
  Frame (columns f) (dtypes f) (firstn n (rows f)).

(** The keys of [groupby] on a column of strings: the distinct strings,
    sorted; rows whose key is missing belong to no group. *)
Definition text_labels (cs : list cell) : list string :=
  flat_map (fun c => match c with Text t => [t] | _ => [] end) cs.

Fixpoint unique (l : list string) : list string :=
  match l with
  | [] => []
  | x :: l' => if mem x l' then unique l' else x :: unique l'
  end.

Fixpoint insert_sorted (s : string) (l : list string) : list string :=
  match l with
  | [] => [s]
  | x :: l' => if String.leb s x then s :: l else x :: insert_sorted s l'
  end.

Definition sorted (l : list string) : list string :=
  fold_right insert_sorted [] l.

(** [df.groupby(c)]: the groups in the order of their keys, each with the
    rows of its key in the order of [df]. *)
Definition groupby (f : DataFrame) (c : string)
  : result (list (string * DataFrame)) :=
  key <- getitem f c ;;
  Ok (map (fun k => (k, loc_mask (map (cell_eqb (Text k)) key) f))
          (sorted (unique (text_labels key)))).

(** The data of a CSV file written with [to_csv(index=False)]: the header
    and a line of values for each row, the index labels left out. *)
Record csv_file : Type := MkCsv {
  csv_header : list string;
  csv_lines : list (list cell)
}.

Definition to_csv (f : DataFrame) : csv_file :=
  MkCsv (columns f) (map (values f) (rows f)).

Inductive summary_view : Type :=
| Cards (cards : Summary)
| NoIssuesFound.

(** An expander of the preview: [f"{category} ({len(df_cat)} rows)"] and the
    table under it. *)
Record expander : Type := MkExpander {
  category : string;
  group_rows : nat;
  shown : DataFrame
}.

Inductive preview_view : Type :=
| NoIssuesToPreview
| Expanders (groups : list expander).

Record page : Type := MkPage {
  summary_cards : summary_view;
  preview : preview_view;
  issues_csv : option csv_file
}.

Definition rules_file : string := "data/validation_rules.json".

Definition preview_issues (bad : DataFrame) : result preview_view :=
  if empty bad then Ok NoIssuesToPreview
  else
    groups <- groupby bad "issue" ;;
    exps <- mapM (fun kg =>
                    d <- drop_column (snd kg) "issue" ;;
                    Ok (MkExpander (fst kg) (len (snd kg)) (head 5 d)))
                 groups ;;
    Ok (Expanders exps).

Definition download_csv (bad : DataFrame) : result (option csv_file) :=
  if negb (empty bad) then
    d <- drop_column bad "issue" ;; Ok (Some (to_csv d))
  else Ok None.

(** The body of [if uploaded_file:]. *)
Definition dashboard (E : Env) (g : N) (raw : RawTable) : result page :=
  res <- validate_dataset E g raw
           (if path_exists E rules_file then Some rules_file else None) ;;
  let '(bad, _, issues) := res in
  let cards := match issues with
               | [] => NoIssuesFound
               | _ => Cards issues
               end in
  pv <- preview_issues bad ;;
  csv <- download_csv bad ;;
  Ok (MkPage cards pv csv).


Definition sum_over (f : string -> nat) (l : list string) : nat :=
  fold_right Nat.add 0 (map f l).

(** The mask of the rows of a group. *)
Definition group_mask (bad : DataFrame) (k : string) : list bool :=
  map (cell_eqb (Text k)) (column bad "issue").

(** The expander of a group. *)
Definition group_expander (bad : DataFrame) (k : string) : expander :=
  MkExpander k (len (loc_mask (group_mask bad k) bad))
    (head 5 (without (loc_mask (group_mask bad k) bad) "issue")).

(** ** The row counts of the report *)

(** The number of rows in the title of a section, none for the
    placeholder. *)
Definition section_count (s : section) : nat :=
  match shown_rows s with
  | Some n => n
  | None => 0
  end.

(** The number of flagged rows whose label satisfies [p]. *)
Definition label_count (p : string -> bool) (hs : list (nat * cell)) : nat :=
  length (filter (fun h => match snd h with
                           | Text t => p t
                           | _ => false
                           end) hs).

(** The suffixes of a string that are shorter than it. *)
Fixpoint tails (s : string) : list string :=
  match s with
  | EmptyString => []
  | String _ s' => s' :: tails s'
  end.

(** An occurrence of [pat] can begin before [y] and end in it. *)
Definition straddles (pat y : string) : bool :=
  existsb (fun t => negb (String.eqb t "") && String.prefix t y) (tails pat).

(** The patterns by which the report picks the rows of its sections do not
    occur in the column name. *)
Definition plain_name (c : string) : bool :=
  negb (contains "_negative" c) && negb (contains "_outlier" c)
  && negb (contains "_invalid_category" c).

(** A dataset with a column whose name holds a pattern of the report. *)
Definition flag_table : RawTable :=
  MkRaw ["is_outlier"] [["-1"]; ["1"]; ["2"]].

(** * Properties *)

(** ** Lists, masks and cells *)

Lemma select_map_filter {A : Type} (p : A -> bool) (l : list A) :
  select (map p l) l = filter p l.
Proof.
  induction l as [|a l IH]; simpl; [reflexivity|].
  rewrite IH. reflexivity.
Qed.

Lemma select_In {A : Type} (mask : list bool) (l : list A) (a : A) :
  In a (select mask l) -> In a l.
Proof.
  revert mask. induction l as [|x l IH]; intros [|b mask] H; simpl in *;
    try contradiction.
  destruct b; simpl in H.
  - destruct H as [H|H]; [left; exact H | right; eapply IH; exact H].
  - right. eapply IH. exact H.
Qed.

Lemma cell_eqb_refl (c : cell) : cell_eqb c c = true.
Proof.
  destruct c; simpl.
  - reflexivity.
  - apply Qeq_bool_refl.
  - apply String.eqb_refl.
Qed.

Lemma cell_eqb_sym (a b : cell) : cell_eqb a b = cell_eqb b a.
Proof.
  destruct a, b; simpl; try reflexivity.
  - apply Qeq_bool_comm.
  - apply String.eqb_sym.
Qed.

Lemma cells_eqb_refl (v : list cell) : cells_eqb v v = true.
Proof.
  induction v as [|c v IH]; simpl; [reflexivity|].
  rewrite cell_eqb_refl, IH. reflexivity.
Qed.

Lemma cells_eqb_sym (v w : list cell) : cells_eqb v w = cells_eqb w v.
Proof.
  revert w. induction v as [|c v IH]; intros [|d w]; simpl; try reflexivity.
  rewrite cell_eqb_sym, IH. reflexivity.
Qed.

(** ** The duplicate-row detector *)

Lemma duplicated_from_length (vs seen : list (list cell)) :
  length (duplicated_from seen vs) = length vs.
Proof.
  revert seen. induction vs as [|v vs IH]; intros seen; simpl;
    [reflexivity | rewrite IH; reflexivity].
Qed.

Lemma duplicated_from_nth (vs seen : list (list cell)) (n : nat) :
  n < length vs ->
  nth n (duplicated_from seen vs) false
  = existsb (cells_eqb (nth n vs [])) (seen ++ firstn n vs).
Proof.
  revert seen n. induction vs as [|v vs IH]; intros seen n Hn; simpl in Hn.
  - lia.
  - destruct n as [|n]; simpl.
    + rewrite app_nil_r. reflexivity.
    + rewrite IH by lia. rewrite <- app_assoc. reflexivity.
Qed.

Lemma existsb_firstn {A : Type} (p : A -> bool) (l : list A) (d : A) (n : nat) :
  n <= length l ->
  existsb p (firstn n l) = true <-> exists m, m < n /\ p (nth m l d) = true.
Proof.
  revert n. induction l as [|a l IH]; intros n Hn; simpl in Hn.
  - assert (n = 0) by lia. subst n. simpl. split; [discriminate|].
    intros [m [Hm _]]. lia.
  - destruct n as [|n]; simpl.
    + split; [discriminate|]. intros [m [Hm _]]. lia.
    + rewrite orb_true_iff, IH by lia. split.
      * intros [H|[m [Hm H]]]; [exists 0; split; [lia|exact H]|].
        exists (S m). split; [lia|exact H].
      * intros [[|m] [Hm H]]; [left; exact H|].
        right. exists m. split; [lia|exact H].
Qed.

Lemma duplicated_spec (df : DataFrame) (d : row) (n : nat) :
  n < len df ->
  nth n (duplicated df) false = true
  <-> exists m, m < n
                /\ same_values df (nth n (rows df) d) (nth m (rows df) d) = true.
Proof.
  intros Hn. unfold duplicated, len in *.
  rewrite duplicated_from_nth by (rewrite length_map; exact Hn).
  simpl.
  rewrite (existsb_firstn _ _ (values df d)) by (rewrite length_map; lia).
  unfold same_values.
  rewrite (nth_indep _ [] (values df d)) by (rewrite length_map; exact Hn).
  rewrite !map_nth.
  split; intros [m [Hm H]]; exists m; (split; [exact Hm|]).
  - rewrite map_nth in H. exact H.
  - rewrite map_nth. exact H.
Qed.

(** ** Cells by column name *)

Lemma mem_true_iff (c : string) (cols : list string) :
  mem c cols = true <-> In c cols.
Proof.
  unfold mem. rewrite existsb_exists. split.
  - intros [x [Hx He]]. apply String.eqb_eq in He. subst x. exact Hx.
  - intros H. exists c. split; [exact H | apply String.eqb_refl].
Qed.

Lemma mem_app (c : string) (l1 l2 : list string) :
  mem c (l1 ++ l2) = mem c l1 || mem c l2.
Proof. unfold mem. apply existsb_app. Qed.

Lemma mem_filter (c : string) (p : string -> bool) (l : list string) :
  mem c (filter p l) = mem c l && p c.
Proof.
  unfold mem. induction l as [|x l IH]; simpl; [reflexivity|].
  destruct (p x) eqn:P; simpl; rewrite IH; destruct (String.eqb c x) eqn:E;
    simpl; try reflexivity.
  - apply String.eqb_eq in E. subst x. rewrite P. reflexivity.
  - apply String.eqb_eq in E. subst x. rewrite P.
    destruct (existsb (String.eqb c) l); reflexivity.
Qed.

Lemma col_index_None (c : string) (cols : list string) :
  mem c cols = false -> col_index c cols = None.
Proof.
  induction cols as [|x cols IH]; simpl; [reflexivity|].
  destruct (String.eqb c x); simpl; [discriminate|].
  intros H. rewrite (IH H). reflexivity.
Qed.

Lemma cell_of_absent (cols : list string) (c : string) (cs : list cell) :
  mem c cols = false -> cell_of cols c cs = NA.
Proof. intros H. unfold cell_of. rewrite (col_index_None _ _ H). reflexivity. Qed.

Lemma cell_of_cons (x c : string) (cols : list string) (v : cell)
  (cs : list cell) :
  cell_of (x :: cols) c (v :: cs)
  = if String.eqb c x then v else cell_of cols c cs.
Proof.
  unfold cell_of. simpl. destruct (String.eqb c x); [reflexivity|].
  destruct (col_index c cols); reflexivity.
Qed.

(** A row built by column name reads back by column name. *)
Lemma cell_of_map (g : string -> cell) (cols : list string) (c : string) :
  mem c cols = true -> cell_of cols c (map g cols) = g c.
Proof.
  induction cols as [|x cols IH]; simpl; [discriminate|].
  rewrite cell_of_cons. destruct (String.eqb c x) eqn:E.
  - intros _. apply String.eqb_eq in E. subst x. reflexivity.
  - simpl. exact IH.
Qed.

Lemma mem_concat_columns (f g : DataFrame) (c : string) :
  mem c (concat_columns f g) = mem c (columns f) || mem c (columns g).
Proof.
  unfold concat_columns. rewrite mem_app, mem_filter.
  destruct (mem c (columns f)), (mem c (columns g)); reflexivity.
Qed.

Lemma cell_of_reindex_l (f g : DataFrame) (r : row) (c : string) :
  cell_of (concat_columns f g) c
          (cells (reindex (columns f) (concat_columns f g) r))
  = cell_of (columns f) c (cells r).
Proof.
  simpl. destruct (mem c (concat_columns f g)) eqn:E.
  - rewrite cell_of_map by exact E. reflexivity.
  - rewrite cell_of_absent by exact E.
    rewrite mem_concat_columns in E. apply orb_false_iff in E.
    rewrite cell_of_absent by apply E. reflexivity.
Qed.

Lemma cell_of_reindex_r (f g : DataFrame) (r : row) (c : string) :
  cell_of (concat_columns f g) c
          (cells (reindex (columns g) (concat_columns f g) r))
  = cell_of (columns g) c (cells r).
Proof.
  simpl. destruct (mem c (concat_columns f g)) eqn:E.
  - rewrite cell_of_map by exact E. reflexivity.
  - rewrite cell_of_absent by exact E.
    rewrite mem_concat_columns in E. apply orb_false_iff in E.
    rewrite cell_of_absent by apply E. reflexivity.
Qed.

Lemma rows_concat (f g : DataFrame) :
  rows (concat f g)
  = map (reindex (columns f) (concat_columns f g)) (rows f)
    ++ map (reindex (columns g) (concat_columns f g)) (rows g).
Proof. reflexivity. Qed.

Lemma columns_concat (f g : DataFrame) :
  columns (concat f g) = concat_columns f g.
Proof. reflexivity. Qed.

Lemma hits_concat (f g : DataFrame) : hits (concat f g) = hits f ++ hits g.
Proof.
  unfold hits, cell_at. rewrite rows_concat, columns_concat, map_app, !map_map.
  f_equal; apply map_ext; intros r.
  - rewrite cell_of_reindex_l. reflexivity.
  - rewrite cell_of_reindex_r. reflexivity.
Qed.

Lemma mem_assign_columns (f : DataFrame) (c : string) :
  mem c (assign_columns f) = mem c (columns f) || String.eqb c "issue".
Proof.
  unfold assign_columns. destruct (mem "issue" (columns f)) eqn:E.
  - destruct (String.eqb c "issue") eqn:C.
    + apply String.eqb_eq in C. subst c. rewrite E. reflexivity.
    + rewrite orb_false_r. reflexivity.
  - rewrite mem_app. simpl. rewrite orb_false_r. reflexivity.
Qed.

Lemma columns_assign_issue (lbl : string) (f : DataFrame) :
  columns (assign_issue lbl f) = assign_columns f.
Proof. reflexivity. Qed.

Lemma mem_issue_assign (lbl : string) (f : DataFrame) :
  mem "issue" (columns (assign_issue lbl f)) = true.
Proof.
  rewrite columns_assign_issue, mem_assign_columns. apply orb_true_r.
Qed.

Lemma hits_assign_issue (lbl : string) (f : DataFrame) :
  hits (assign_issue lbl f) = labelled lbl (rows f).
Proof.
  unfold hits, labelled, cell_at, assign_issue. simpl. rewrite map_map.
  apply map_ext. intros r. simpl. f_equal.
  fold (assign_columns f).
  rewrite cell_of_map.
  - reflexivity.
  - rewrite mem_assign_columns. simpl. apply orb_true_r.
Qed.

Lemma empty_no_rows (f : DataFrame) : empty f = true -> columns f <> [] -> rows f = [].
Proof.
  unfold empty. intros H Hc. apply orb_true_iff in H. destruct H as [H|H].
  - apply Nat.eqb_eq in H. destruct (rows f); [reflexivity | discriminate].
  - apply Nat.eqb_eq in H. destruct (columns f); [congruence | discriminate].
Qed.

(** ** Flagging the duplicates *)

Lemma record_issue_hits (category label : string) (found : DataFrame)
  (st : State) :
  columns found <> [] ->
  hits (bad_rows (record_issue category label found st))
  = hits (bad_rows st) ++ labelled label (rows found).
Proof.
  intros Hc. unfold record_issue. destruct (empty found) eqn:E.
  - rewrite (empty_no_rows _ E Hc). simpl. rewrite app_nil_r. reflexivity.
  - simpl. rewrite hits_concat, hits_assign_issue. reflexivity.
Qed.

(** C5.  The duplicate-row detector marks a row exactly when an earlier row
    of the normalised dataset is identical to it in all columns, so a first
    occurrence is never marked, and the marked rows are the ones appended
    under the label [duplicate]; of three identical rows [A, A, A] the second
    and the third are flagged, and in [A, B, A] with [A] distinct from [B]
    only the third row is. *)
Theorem duplicates_flag_repeats_only
  (cols : list string) (dts : list dtype) (a b : list cell) (i j k : nat) :
  same_values (Frame cols dts []) (Row i a) (Row j b) = false ->
  (forall (df : DataFrame) (d : row) (n : nat),
      n < len df ->
      nth n (duplicated df) false = true
      <-> exists m, m < n
            /\ same_values df (nth n (rows df) d) (nth m (rows df) d) = true)
  /\ (forall (df : DataFrame) (st : State),
         columns df <> [] ->
         hits (bad_rows (record_issue "Duplicate Rows" "duplicate"
                                      (duplicates df) st))
         = hits (bad_rows st)
           ++ labelled "duplicate" (select (duplicated df) (rows df)))
  /\ duplicates (Frame cols dts [Row i a; Row j a; Row k a])
     = Frame cols dts [Row j a; Row k a]
  /\ duplicates (Frame cols dts [Row i a; Row j b; Row k a])
     = Frame cols dts [Row k a].
Proof.
  intros Hab. split; [|split; [|split]].
  - intros df d n. apply duplicated_spec.
  - intros df st Hc. apply (record_issue_hits _ _ (duplicates df) st Hc).
  - unfold duplicates, duplicated, loc_mask, values. simpl.
    rewrite !cells_eqb_refl. reflexivity.
  - unfold same_values, values in Hab. simpl in Hab.
    unfold duplicates, duplicated, loc_mask, values. simpl.
    rewrite cells_eqb_sym, Hab, cells_eqb_refl. reflexivity.
Qed.

Lemma duplicates_flag_repeats_only_witness :
  duplicates (Frame ["name"; "price"] [Object; Int64]
                    [Row 0 [Text "x"; Num 1%Q]; Row 1 [Text "x"; Num 1%Q];
                     Row 2 [Text "x"; Num 1%Q]])
  = Frame ["name"; "price"] [Object; Int64]
          [Row 1 [Text "x"; Num 1%Q]; Row 2 [Text "x"; Num 1%Q]]
  /\ duplicates (Frame ["name"; "price"] [Object; Int64]
                       [Row 0 [Text "x"; Num 1%Q]; Row 1 [Text "y"; Num 1%Q];
                        Row 2 [Text "x"; Num 1%Q]])
     = Frame ["name"; "price"] [Object; Int64] [Row 2 [Text "x"; Num 1%Q]].
Proof.
  apply (proj2 (proj2 (duplicates_flag_repeats_only
                         ["name"; "price"] [Object; Int64]
                         [Text "x"; Num 1%Q] [Text "y"; Num 1%Q] 0 1 2
                         eq_refl))).
Defined.

(** ** The declarative-rule detector *)

Lemma mapM_obj_cmp (op : Q -> Q -> bool) (v : Q) (cs : list cell)
  (mask : list bool) :
  mapM (obj_cmp op v) cs = Ok mask -> mask = map (num_cmp op v) cs.
Proof.
  revert mask. induction cs as [|c cs IH]; intros mask H; simpl in H.
  - injection H as <-. reflexivity.
  - destruct c as [|x|s]; simpl in H; try discriminate;
      destruct (mapM (obj_cmp op v) cs) as [bs|e]; simpl in H;
      try discriminate; injection H as <-; rewrite (IH bs eq_refl);
      reflexivity.
Qed.

Lemma series_cmp_Ok (op : Q -> Q -> bool) (s : Series) (v : Q)
  (mask : list bool) :
  series_cmp op s v = Ok mask -> mask = map (num_cmp op v) (s_values s).
Proof.
  unfold series_cmp. destruct (is_numeric (s_dtype s)).
  - intros H. injection H as <-. reflexivity.
  - apply mapM_obj_cmp.
Qed.


Lemma select_column (df : DataFrame) (col : string) (p : cell -> bool) :
  select (map p (column df col)) (rows df) = rows_where df col p.
Proof.
  unfold column, rows_where, cell_at. rewrite map_map.
  apply (select_map_filter (fun r => p (cell_of (columns df) col (cells r)))).
Qed.

Lemma hits_add_violations (lbl : string) (df : DataFrame) (mask : list bool)
  (v : DataFrame) :
  columns df <> [] ->
  hits (add_violations lbl df mask v)
  = hits v ++ labelled lbl (select mask (rows df)).
Proof.
  intros Hc. unfold add_violations.
  destruct (empty (loc_mask mask df)) eqn:E.
  - apply empty_no_rows in E; [|exact Hc]. simpl in E. rewrite E.
    simpl. rewrite app_nil_r. reflexivity.
  - rewrite hits_concat, hits_assign_issue. reflexivity.
Qed.

Lemma mem_columns_nonempty (df : DataFrame) (col : string) :
  mem col (columns df) = true -> columns df <> [].
Proof. destruct (columns df); [discriminate | discriminate]. Qed.

Lemma apply_rule_hits (df : DataFrame) (item : string * Rule)
  (v v' : DataFrame) :
  apply_rule df item v = Ok v' -> hits v' = hits v ++ rule_hits df item.
Proof.
  destruct item as [col rule]. unfold apply_rule, rule_hits.
  destruct (mem col (columns df)) eqn:M; simpl.
  2:{ intros H. injection H as <-. rewrite app_nil_r. reflexivity. }
  pose proof (mem_columns_nonempty _ _ M) as Hc.
  unfold check_min, check_max, check_allowed, series_lt, series_gt.
  intros H.
  assert (H1 : exists v1,
             hits v1 = hits v
                       ++ match rule_min rule with
                          | Some lo => labelled (col ++ "_below_min")
                                         (rows_where df col (strictly_below lo))
                          | None => []
                          end
             /\ (v2 <- match rule_max rule with
                       | Some hi =>
                           mask <- series_cmp Qgt_bool (getcol df col) hi ;;
                           Ok (add_violations (col ++ "_above_max") df mask v1)
                       | None => Ok v1
                       end ;;
                 match rule_allowed rule with
                 | Some allowed =>
                     Ok (add_violations (col ++ "_invalid_value") df
                           (map negb (isin (getcol df col) allowed)) v2)
                 | None => Ok v2
                 end) = Ok v').
  { destruct (rule_min rule) as [lo|].
    - destruct (series_cmp Qlt_bool (getcol df col) lo) as [mask|e] eqn:S;
        simpl in H; [|discriminate].
      apply series_cmp_Ok in S. subst mask. eexists. split; [|exact H].
      rewrite hits_add_violations by exact Hc. simpl.
      rewrite select_column. reflexivity.
    - simpl in H. exists v. split; [|exact H]. rewrite app_nil_r. reflexivity. }
  destruct H1 as [v1 [E1 H1]]. clear H.
  assert (H2 : exists v2,
             hits v2 = hits v1
                       ++ match rule_max rule with
                          | Some hi => labelled (col ++ "_above_max")
                                         (rows_where df col (strictly_above hi))
                          | None => []
                          end
             /\ match rule_allowed rule with
                | Some allowed =>
                    Ok (add_violations (col ++ "_invalid_value") df
                          (map negb (isin (getcol df col) allowed)) v2)
                | None => Ok v2
                end = Ok v').
  { destruct (rule_max rule) as [hi|].
    - destruct (series_cmp Qgt_bool (getcol df col) hi) as [mask|e] eqn:S;
        simpl in H1; [|discriminate].
      apply series_cmp_Ok in S. subst mask. eexists. split; [|exact H1].
      rewrite hits_add_violations by exact Hc. simpl.
      rewrite select_column. reflexivity.
    - simpl in H1. exists v1. split; [|exact H1].
      rewrite app_nil_r. reflexivity. }
  destruct H2 as [v2 [E2 H2]]. clear H1.
  rewrite app_assoc, <- E1, app_assoc, <- E2.
  destruct (rule_allowed rule) as [allowed|]; injection H2 as <-.
  - rewrite hits_add_violations by exact Hc. f_equal.
    unfold isin. simpl. rewrite map_map.
    rewrite <- (select_column df col (not_allowed allowed)). reflexivity.
  - rewrite app_nil_r. reflexivity.
Qed.

Lemma apply_rules_hits (df : DataFrame) (rules : RuleSet) (v v' : DataFrame) :
  foldM (apply_rule df) rules v = Ok v' ->
  hits v' = hits v ++ flat_map (rule_hits df) rules.
Proof.
  revert v. induction rules as [|item rules IH]; intros v H; simpl in H.
  - injection H as <-. simpl. rewrite app_nil_r. reflexivity.
  - destruct (apply_rule df item v) as [v1|e] eqn:A; simpl in H;
      [|discriminate].
    rewrite (IH _ H), (apply_rule_hits _ _ _ _ A), <- app_assoc. reflexivity.
Qed.

(** Whatever the rule set, a result of [apply_json_rules] holds the hits the
    specification lists, in its order. *)
Lemma apply_json_rules_hits (df : DataFrame) (rules : RuleSet) (v : DataFrame) :
  apply_json_rules df rules = Ok v -> hits v = flat_map (rule_hits df) rules.
Proof. intros H. apply (apply_rules_hits df rules empty_frame v H). Qed.





(** ** The statistical outlier detector *)


















Lemma outliers_of_rows (df : DataFrame) (col : string) :
  rows (outliers_of df col) = filter (is_outlier df col) (rows df).
Proof.
  unfold outliers_of, outlier_mask, is_outlier. simpl.
  apply (select_column df col
           (outlier_cell (mean (getcol df col)) (var (getcol df col)))).
Qed.

Lemma filter_nil {A : Type} (p : A -> bool) (l : list A) :
  (forall a, In a l -> p a = false) -> filter p l = [].
Proof.
  induction l as [|a l IH]; intros H; simpl; [reflexivity|].
  rewrite (H a (or_introl eq_refl)). apply IH. intros b Hb. apply H. right. exact Hb.
Qed.





(** ** The detectors as steps on the state *)

Lemma extends_trans (a b c : State) : extends a b -> extends b c -> extends a c.
Proof.
  intros Hab Hbc. induction Hbc as [|st' cat lbl found H IH|st' v d H IH Ev].
  - exact Hab.
  - apply ext_record. exact IH.
  - apply ext_concat; assumption.
Qed.

Lemma foldM_extends {A : Type} (f : A -> State -> result State) (l : list A) :
  (forall a st st', f a st = Ok st' -> extends st st') ->
  forall st st', foldM f l st = Ok st' -> extends st st'.
Proof.
  intros Hf. induction l as [|a l IH]; intros st st' H; simpl in H.
  - injection H as <-. apply ext_refl.
  - destruct (f a st) as [s1|e] eqn:F; simpl in H; [|discriminate].
    eapply extends_trans; [apply (Hf _ _ _ F) | apply (IH _ _ H)].
Qed.

Lemma negative_values_extends (df : DataFrame) (col : string) (st st' : State) :
  negative_values df col st = Ok st' -> extends st st'.
Proof.
  unfold negative_values.
  destruct (series_lt (getcol df col) 0%Q); simpl; [|discriminate].
  intros H. injection H as <-. apply ext_record, ext_refl.
Qed.

Lemma outliers_extends (df : DataFrame) (col : string) (st st' : State) :
  outliers df col st = Ok st' -> extends st st'.
Proof.
  unfold outliers. intros H. injection H as <-. apply ext_record, ext_refl.
Qed.

Lemma invalid_categories_extends (df : DataFrame) (col : string)
  (st st' : State) :
  invalid_categories df col st = Ok st' -> extends st st'.
Proof.
  unfold invalid_categories. intros H. injection H as <-.
  apply ext_record, ext_refl.
Qed.

Lemma ml_anomalies_extends (E : Env) (g : N) (df : DataFrame)
  (cols : list string) (st st' : State) :
  ml_anomalies E g df cols st = Ok st' -> extends st st'.
Proof.
  unfold ml_anomalies. destruct (0 <? length cols).
  2:{ intros H. injection H as <-. apply ext_refl. }
  destruct (negb (empty (ml_input df cols))).
  2:{ intros H. injection H as <-. apply ext_refl. }
  destruct (ml_outliers E g (ml_input df cols)); simpl; [|discriminate].
  intros H. injection H as <-. apply ext_record, ext_refl.
Qed.

Lemma json_rules_extends (E : Env) (df : DataFrame) (rp : option string)
  (st st' : State) (json_rows : DataFrame) :
  json_rules E df rp st = Ok (json_rows, st') -> extends st st'.
Proof.
  unfold json_rules. destruct rp as [p|].
  2:{ intros H. injection H as _ <-. apply ext_refl. }
  destruct (rules_available E (Some p)).
  2:{ intros H. injection H as _ <-. apply ext_refl. }
  destruct (json_load E p) as [rules|e]; simpl; [|discriminate].
  destruct (apply_json_rules df rules) as [v|e]; simpl; [|discriminate].
  destruct (empty v) eqn:Ev; intros H; injection H as <- <-.
  - apply ext_refl.
  - apply ext_concat; [apply ext_refl | exact Ev].
Qed.

(** The stages of [run_detectors], named. *)
Lemma run_detectors_stages (E : Env) (g : N) (df : DataFrame)
  (rp : option string) (json_rows : DataFrame) (st : State) :
  run_detectors E g df rp = Ok (json_rows, st) ->
  exists s3 s4 s5 s6,
    foldM (negative_values df) (select_dtypes is_numeric df)
          (record_issue "Duplicate Rows" "duplicate" (duplicates df)
             (record_issue "Missing Values" "missing" (missing_rows df)
                           initial)) = Ok s3
    /\ foldM (outliers df) (select_dtypes is_numeric df) s3 = Ok s4
    /\ foldM (invalid_categories df) (select_dtypes is_object df) s4 = Ok s5
    /\ ml_anomalies E g df (select_dtypes is_numeric df) s5 = Ok s6
    /\ json_rules E df rp s6 = Ok (json_rows, st).
Proof.
  unfold run_detectors. intros H.
  destruct (foldM (negative_values df) _ _) as [s3|e] eqn:H3; simpl in H;
    [|discriminate].
  destruct (foldM (outliers df) _ s3) as [s4|e] eqn:H4; simpl in H;
    [|discriminate].
  destruct (foldM (invalid_categories df) _ s4) as [s5|e] eqn:H5; simpl in H;
    [|discriminate].
  destruct (ml_anomalies E g df _ s5) as [s6|e] eqn:H6; simpl in H;
    [|discriminate].
  exists s3, s4, s5, s6. repeat split; try assumption.
Qed.

Lemma run_detectors_extends (E : Env) (g : N) (df : DataFrame)
  (rp : option string) (json_rows : DataFrame) (st : State) :
  run_detectors E g df rp = Ok (json_rows, st) -> extends initial st.
Proof.
  intros H. apply run_detectors_stages in H.
  destruct H as (s3 & s4 & s5 & s6 & H3 & H4 & H5 & H6 & H7).
  apply (foldM_extends _ _ (negative_values_extends df)) in H3.
  apply (foldM_extends _ _ (outliers_extends df)) in H4.
  apply (foldM_extends _ _ (invalid_categories_extends df)) in H5.
  apply ml_anomalies_extends in H6. apply json_rules_extends in H7.
  eapply extends_trans; [|exact H7]. eapply extends_trans; [|exact H6].
  eapply extends_trans; [|exact H5]. eapply extends_trans; [|exact H4].
  eapply extends_trans; [|exact H3].
  apply ext_record, ext_record, ext_refl.
Qed.

(** ** Nothing flagged *)

Lemma record_issue_rows (category label : string) (hits : DataFrame)
  (st : State) :
  record_issue category label hits st = st
  \/ rows (bad_rows (record_issue category label hits st)) <> [].
Proof.
  unfold record_issue. destruct (empty hits) eqn:E; [left; reflexivity|].
  right. simpl. unfold empty in E. apply orb_false_iff in E.
  destruct E as [E _]. apply Nat.eqb_neq in E.
  destruct (rows hits); [contradiction|]. simpl.
  intros H. apply app_eq_nil in H. destruct H as [_ H]. discriminate.
Qed.

Lemma extends_rows (a b : State) :
  extends a b -> bad_rows b = bad_rows a \/ rows (bad_rows b) <> [].
Proof.
  intros H. induction H as [|st' cat lbl found H IH|st' v d H IH Ev].
  - left. reflexivity.
  - destruct (record_issue_rows cat lbl found st') as [R|R].
    + rewrite R. exact IH.
    + right. exact R.
  - right. simpl. unfold empty in Ev. apply orb_false_iff in Ev.
    destruct Ev as [E _]. apply Nat.eqb_neq in E.
    destruct (rows v); [contradiction|]. intros N.
    apply app_eq_nil in N. destruct N as [_ N]. discriminate.
Qed.

Lemma nothing_flagged (E : Env) (g : N) (df : DataFrame) (rp : option string)
  (json_rows : DataFrame) (st : State) :
  run_detectors E g df rp = Ok (json_rows, st) ->
  rows (bad_rows st) = [] -> bad_rows st = empty_frame.
Proof.
  intros H R. apply run_detectors_extends in H. apply extends_rows in H.
  destruct H as [H|H]; [exact H | contradiction].
Qed.

(** C9.  Whenever no detector flags a row, [validate_dataset] does not
    return: building the report it reads the column [issue] of the flagged
    rows, which the empty frame does not have, and raises
    [KeyError('issue')].  The witness is a dataset of one text column with
    two distinct values. *)
Theorem report_fails_when_nothing_is_flagged
  (E : Env) (g : N) (raw : RawTable) (rules_path : option string)
  (df json_rows : DataFrame) (st : State) :
  load_dataset E raw = Ok df ->
  run_detectors E g df rules_path = Ok (json_rows, st) ->
  rows (bad_rows st) = [] ->
  validate_dataset E g raw rules_path = Raise (KeyError "issue").
Proof.
  intros L D R. unfold validate_dataset. rewrite L. cbn [bind]. rewrite D.
  cbn [bind]. rewrite (nothing_flagged _ _ _ _ _ _ D R). reflexivity.
Qed.

Lemma report_fails_when_nothing_is_flagged_witness :
  validate_dataset example_env 0%N clean_table None = Raise (KeyError "issue").
Proof.
  eapply (report_fails_when_nothing_is_flagged example_env 0%N clean_table None);
    vm_compute; reflexivity.
Defined.

(** ** The issue counts *)

Lemma empty_len (f : DataFrame) :
  columns f <> [] -> empty f = (len f =? 0).
Proof.
  intros H. unfold empty, len. destruct (columns f); [contradiction|].
  simpl. apply orb_false_r.
Qed.

Lemma record_issue_summary (category label : string) (found : DataFrame)
  (st : State) :
  columns found <> [] ->
  issues_summary (record_issue category label found st)
  = add_entry (issues_summary st) (category, len found).
Proof.
  intros H. unfold record_issue, add_entry, positive. rewrite (empty_len _ H).
  simpl. destruct (len found); reflexivity.
Qed.

Lemma foldM_summary {A : Type} (f : A -> State -> result State)
  (entry : A -> string * nat) (l : list A) :
  (forall a st st', f a st = Ok st' ->
     issues_summary st' = add_entry (issues_summary st) (entry a)) ->
  forall st st', foldM f l st = Ok st' ->
    issues_summary st' = fold_left add_entry (map entry l) (issues_summary st).
Proof.
  intros Hf. induction l as [|a l IH]; intros st st' H; simpl in H.
  - injection H as <-. reflexivity.
  - destruct (f a st) as [s1|e] eqn:F; simpl in H; [|discriminate].
    simpl. rewrite (IH _ _ H), (Hf _ _ _ F). reflexivity.
Qed.

Lemma negative_values_summary (df : DataFrame) (col : string) (st st' : State) :
  columns df <> [] ->
  negative_values df col st = Ok st' ->
  issues_summary st' = add_entry (issues_summary st) (negative_entry df col).
Proof.
  intros Hc. unfold negative_values, negative_entry, negative_count.
  destruct (series_lt (getcol df col) 0%Q) as [mask|e]; simpl; [|discriminate].
  intros H. injection H as <-. rewrite record_issue_summary by exact Hc.
  reflexivity.
Qed.

Lemma outliers_summary (df : DataFrame) (col : string) (st st' : State) :
  columns df <> [] ->
  outliers df col st = Ok st' ->
  issues_summary st' = add_entry (issues_summary st) (outlier_entry df col).
Proof.
  intros Hc. unfold outliers. intros H. injection H as <-.
  rewrite record_issue_summary by exact Hc. reflexivity.
Qed.

Lemma invalid_categories_summary (df : DataFrame) (col : string)
  (st st' : State) :
  columns df <> [] ->
  invalid_categories df col st = Ok st' ->
  issues_summary st' = add_entry (issues_summary st) (invalid_entry df col).
Proof.
  intros Hc. unfold invalid_categories. intros H. injection H as <-.
  rewrite record_issue_summary by exact Hc. reflexivity.
Qed.

Lemma ml_outliers_columns (E : Env) (g : N) (ml_df out : DataFrame) :
  ml_outliers E g ml_df = Ok out -> columns ml_df <> [] -> columns out <> [].
Proof.
  unfold ml_outliers, getitem_mask. intros H Hc.
  destruct (IsolationForest_fit_predict E _ _ g _) as [l1|e]; simpl in H;
    [|discriminate].
  destruct (length (is_outlier_label l1) =? length (rows ml_df)); simpl in H;
    [|discriminate].
  destruct (LocalOutlierFactor_fit_predict E _ _ _) as [l2|e]; simpl in H;
    [|discriminate].
  destruct (length (is_outlier_label l2) =? length (rows ml_df)); simpl in H;
    [|discriminate].
  injection H as <-. simpl. destruct (columns ml_df); [contradiction|].
  discriminate.
Qed.

Lemma ml_anomalies_summary (E : Env) (g : N) (df : DataFrame) (st st' : State) :
  ml_anomalies E g df (select_dtypes is_numeric df) st = Ok st' ->
  issues_summary st'
  = add_entry (issues_summary st) ("ML Anomalies", ml_count E g df).
Proof.
  unfold ml_anomalies, ml_count.
  destruct (0 <? length (select_dtypes is_numeric df)) eqn:G; simpl.
  2:{ intros H. injection H as <-. reflexivity. }
  destruct (negb (empty (ml_input df (select_dtypes is_numeric df)))); simpl.
  2:{ intros H. injection H as <-. reflexivity. }
  destruct (ml_outliers E g (ml_input df (select_dtypes is_numeric df)))
    as [out|e] eqn:M; simpl; [|discriminate].
  intros H. injection H as <-. apply record_issue_summary.
  apply (ml_outliers_columns _ _ _ _ M). simpl.
  apply Nat.ltb_lt in G. destruct (select_dtypes is_numeric df);
    [simpl in G; lia | discriminate].
Qed.

Lemma add_violations_columns (lbl : string) (df : DataFrame) (mask : list bool)
  (v : DataFrame) :
  (rows v = [] \/ columns v <> []) ->
  rows (add_violations lbl df mask v) = []
  \/ columns (add_violations lbl df mask v) <> [].
Proof.
  intros H. unfold add_violations.
  destruct (empty (loc_mask mask df)); [exact H|].
  right. rewrite columns_concat. intros N.
  assert (M : mem "issue" (concat_columns v (assign_issue lbl (loc_mask mask df)))
              = true).
  { rewrite mem_concat_columns, mem_issue_assign. apply orb_true_r. }
  rewrite N in M. discriminate.
Qed.

Lemma apply_rule_columns (df : DataFrame) (item : string * Rule)
  (v v' : DataFrame) :
  apply_rule df item v = Ok v' ->
  (rows v = [] \/ columns v <> []) -> rows v' = [] \/ columns v' <> [].
Proof.
  destruct item as [col rule]. unfold apply_rule.
  destruct (negb (mem col (columns df))).
  { intros H. injection H as <-. tauto. }
  unfold check_min, check_max, check_allowed. intros H Hv.
  destruct (rule_min rule) as [lo|];
    [destruct (series_lt (getcol df col) lo) as [m1|e]; simpl in H;
       [|discriminate]|];
    (destruct (rule_max rule) as [hi|];
     [destruct (series_gt (getcol df col) hi) as [m2|e]; simpl in H;
        [|discriminate]|]);
    destruct (rule_allowed rule); simpl in H; injection H as <-;
    repeat apply add_violations_columns; exact Hv.
Qed.

Lemma apply_json_rules_empty (df : DataFrame) (rules : RuleSet) (v : DataFrame) :
  apply_json_rules df rules = Ok v -> empty v = (len v =? 0).
Proof.
  intros H.
  assert (P : rows v = [] \/ columns v <> []).
  { unfold apply_json_rules in H.
    assert (P0 : rows empty_frame = [] \/ columns empty_frame <> [])
      by (left; reflexivity).
    revert H P0. generalize empty_frame. clear.
    induction rules as [|item rules IH]; intros v0 H P0; simpl in H.
    - injection H as <-. exact P0.
    - destruct (apply_rule df item v0) as [v1|e] eqn:A; simpl in H;
        [|discriminate].
      apply (IH v1 H). apply (apply_rule_columns _ _ _ _ A P0). }
  destruct P as [P|P].
  - unfold empty, len. rewrite P. reflexivity.
  - apply empty_len. exact P.
Qed.

Lemma json_rules_summary (E : Env) (df : DataFrame) (rp : option string)
  (st st' : State) (json_rows : DataFrame) :
  json_rules E df rp st = Ok (json_rows, st') ->
  issues_summary st'
  = add_entry (issues_summary st) ("JSON Rule Violations", json_count E df rp).
Proof.
  unfold json_rules, json_count. destruct rp as [p|].
  2:{ intros H. injection H as _ <-. reflexivity. }
  destruct (rules_available E (Some p)).
  2:{ intros H. injection H as _ <-. reflexivity. }
  destruct (json_load E p) as [rules|e]; simpl; [|discriminate].
  destruct (apply_json_rules df rules) as [v|e] eqn:A; simpl; [|discriminate].
  rewrite (apply_json_rules_empty _ _ _ A). unfold add_entry, positive. simpl.
  destruct (len v) eqn:L; simpl; intros H; injection H as _ <-; reflexivity.
Qed.

(** The counts a run returns are the categories, entered in their order. *)
Lemma run_detectors_summary (E : Env) (g : N) (df : DataFrame)
  (rp : option string) (json_rows : DataFrame) (st : State) :
  columns df <> [] ->
  run_detectors E g df rp = Ok (json_rows, st) ->
  issues_summary st = fold_left add_entry (categories E g df rp) [].
Proof.
  intros Hc H. apply run_detectors_stages in H.
  destruct H as (s3 & s4 & s5 & s6 & H3 & H4 & H5 & H6 & H7).
  apply (foldM_summary _ (negative_entry df)) in H3;
    [|intros a s s'; apply negative_values_summary; exact Hc].
  apply (foldM_summary _ (outlier_entry df)) in H4;
    [|intros a s s'; apply outliers_summary; exact Hc].
  apply (foldM_summary _ (invalid_entry df)) in H5;
    [|intros a s s'; apply invalid_categories_summary; exact Hc].
  apply ml_anomalies_summary in H6. apply json_rules_summary in H7.
  unfold categories. rewrite !fold_left_app. cbn [fold_left].
  rewrite H7, H6, H5, H4, H3.
  rewrite !record_issue_summary by exact Hc. reflexivity.
Qed.

Lemma dict_set_fresh (k : string) (v : nat) (d : Summary) :
  ~ In k (keys d) -> dict_set k v d = d ++ [(k, v)].
Proof.
  induction d as [|[k' v'] d IH]; intros H; simpl; [reflexivity|].
  destruct (String.eqb k k') eqn:E.
  - apply String.eqb_eq in E. exfalso. apply H. left. symmetry. exact E.
  - rewrite IH; [reflexivity|]. intros N. apply H. right. exact N.
Qed.

Lemma fold_add_entries (cats d : Summary) :
  NoDup (keys d ++ keys cats) ->
  fold_left add_entry cats d = d ++ filter positive cats.
Proof.
  revert d. induction cats as [|[k n] cats IH]; intros d H; simpl.
  - rewrite app_nil_r. reflexivity.
  - simpl in H. unfold add_entry at 2. destruct (positive (k, n)) eqn:P; simpl.
    + rewrite dict_set_fresh.
      * rewrite IH.
        -- rewrite <- app_assoc. reflexivity.
        -- unfold keys in *. rewrite map_app, <- app_assoc. exact H.
      * apply NoDup_remove_2 in H. intros N. apply H. apply in_or_app.
        left. exact N.
    + apply IH. apply NoDup_remove_1 in H. exact H.
Qed.

Lemma string_length_append (s t : string) :
  String.length (s ++ t) = String.length s + String.length t.
Proof. induction s as [|a s IH]; simpl; [reflexivity | rewrite IH; reflexivity]. Qed.

Lemma append_inj_r (s s' t : string) :
  (s ++ t)%string = (s' ++ t)%string -> s = s'.
Proof.
  revert s'. induction s as [|a s IH]; intros [|b s'] H; simpl in H.
  - reflexivity.
  - apply (f_equal String.length) in H. simpl in H.
    rewrite string_length_append in H. lia.
  - apply (f_equal String.length) in H. simpl in H.
    rewrite string_length_append in H. lia.
  - injection H as -> H. rewrite (IH _ H). reflexivity.
Qed.

Lemma NoDup_map_injective {A B : Type} (f : A -> B) (l : list A) :
  (forall x y, f x = f y -> x = y) -> NoDup l -> NoDup (map f l).
Proof.
  intros Hf H. induction H as [|a l Ha H IH]; simpl; constructor.
  - intros N. apply in_map_iff in N. destruct N as [b [E Hb]].
    apply Hf in E. subst b. contradiction.
  - exact IH.
Qed.

Lemma In_combine_fst {A B : Type} (p : A * B -> bool) (l : list A)
  (l' : list B) (a : A) :
  In a (map fst (filter p (combine l l'))) -> In a l.
Proof.
  intros H. apply in_map_iff in H. destruct H as [[x y] [E H]]. simpl in E.
  subst x. apply filter_In in H. destruct H as [H _].
  apply in_combine_l in H. exact H.
Qed.

Lemma NoDup_select_dtypes (p : dtype -> bool) (df : DataFrame) :
  NoDup (columns df) -> NoDup (select_dtypes p df).
Proof.
  unfold select_dtypes. generalize (dtypes df) as dts.
  induction (columns df) as [|c cols IH]; intros dts H; simpl; [constructor|].
  destruct dts as [|d dts]; simpl; [constructor|].
  apply NoDup_cons_iff in H. destruct H as [Hc H].
  destruct (p d); simpl.
  - constructor; [|apply IH; exact H].
    intros N. apply Hc. eapply In_combine_fst. exact N.
  - apply IH. exact H.
Qed.

Lemma keys_categories (E : Env) (g : N) (df : DataFrame) (rp : option string) :
  keys (categories E g df rp)
  = ["Missing Values"; "Duplicate Rows"]
    ++ map (fun c => ("Negative Values (" ++ c ++ ")")%string)
           (select_dtypes is_numeric df)
    ++ map (fun c => ("Outliers (" ++ c ++ ")")%string)
           (select_dtypes is_numeric df)
    ++ map (fun c => ("Invalid Categories (" ++ c ++ ")")%string)
           (select_dtypes is_object df)
    ++ ["ML Anomalies"; "JSON Rule Violations"].
Proof.
  unfold keys, categories. rewrite !map_app, !map_map. reflexivity.
Qed.

Ltac key_clash :=
  repeat match goal with
         | H : In _ (_ ++ _) |- _ => apply in_app_or in H; destruct H as [H|H]
         | H : In _ (map _ _) |- _ =>
             apply in_map_iff in H; destruct H as [? [? H]]
         | H : In _ (_ :: _) |- _ => destruct H as [H|H]
         | H : In _ [] |- _ => destruct H
         end;
  subst; simpl in *; try discriminate; try congruence.

Lemma NoDup_keys_categories (E : Env) (g : N) (df : DataFrame)
  (rp : option string) :
  NoDup (columns df) -> NoDup (keys (categories E g df rp)).
Proof.
  intros H. rewrite keys_categories.
  pose proof (NoDup_select_dtypes is_numeric df H) as Hn.
  pose proof (NoDup_select_dtypes is_object df H) as Ho.
  repeat apply NoDup_app.
  - repeat constructor; intros N; key_clash.
  - apply NoDup_map_injective; [|exact Hn]. intros x y E0. simpl in E0.
    injection E0 as E0. apply append_inj_r in E0. exact E0.
  - apply NoDup_map_injective; [|exact Hn]. intros x y E0. simpl in E0.
    injection E0 as E0. apply append_inj_r in E0. exact E0.
  - apply NoDup_map_injective; [|exact Ho]. intros x y E0. simpl in E0.
    injection E0 as E0. apply append_inj_r in E0. exact E0.
  - repeat constructor; intros N; key_clash.
  - intros a Ha N. key_clash.
  - intros a Ha N. key_clash.
  - intros a Ha N. key_clash.
  - intros a Ha N. key_clash.
Qed.

Lemma read_csv_columns (E : Env) (na : list string) (raw : RawTable)
  (df : DataFrame) :
  read_csv E na raw = Ok df -> columns df = header raw /\ header raw <> [].
Proof.
  unfold read_csv. destruct (length (header raw) =? 0) eqn:Z; [discriminate|].
  destruct (existsb _ (lines raw)); [discriminate|].
  intros H. injection H as <-. simpl. split; [reflexivity|].
  intros N. rewrite N in Z. discriminate.
Qed.

Lemma load_dataset_columns (E : Env) (raw : RawTable) (df : DataFrame) :
  load_dataset E raw = Ok df -> columns df = header raw /\ header raw <> [].
Proof.
  unfold load_dataset.
  destruct (read_csv E _ raw) as [df0|e] eqn:R; simpl; [|discriminate].
  intros H. injection H as <-. simpl. eapply read_csv_columns. exact R.
Qed.

Lemma validate_dataset_Ok (E : Env) (g : N) (raw : RawTable)
  (rp : option string) (bad : DataFrame) (report : list section)
  (summary : Summary) :
  validate_dataset E g raw rp = Ok (bad, report, summary) ->
  exists df json_rows st,
    load_dataset E raw = Ok df
    /\ run_detectors E g df rp = Ok (json_rows, st)
    /\ html_report df (bad_rows st) json_rows = Ok report
    /\ bad = bad_rows st /\ summary = issues_summary st.
Proof.
  unfold validate_dataset. intros H.
  destruct (load_dataset E raw) as [df|e] eqn:L; cbn [bind] in H;
    [|discriminate].
  destruct (run_detectors E g df rp) as [[jr st]|e] eqn:D; cbn [bind] in H;
    [|discriminate].
  destruct (html_report df (bad_rows st) jr) as [rep|e] eqn:R; cbn [bind] in H;
    [|discriminate].
  injection H as <- <- <-. exists df, jr, st. repeat split; assumption.
Qed.

Lemma keys_functional (d : Summary) (k : string) (n n' : nat) :
  NoDup (keys d) -> In (k, n) d -> In (k, n') d -> n = n'.
Proof.
  induction d as [|[k0 n0] d IH]; intros H H1 H2; simpl in *; [contradiction|].
  apply NoDup_cons_iff in H. destruct H as [Hk H].
  destruct H1 as [H1|H1], H2 as [H2|H2].
  - congruence.
  - injection H1 as -> ->. exfalso. apply Hk.
    apply (in_map fst) in H2. exact H2.
  - injection H2 as -> ->. exfalso. apply Hk.
    apply (in_map fst) in H1. exact H1.
  - apply IH; assumption.
Qed.

(** C7.  The issue counts [validate_dataset] returns are the categories of
    positive count, in the fixed order: Missing Values, Duplicate Rows,
    Negative Values per numeric column, Outliers per numeric column, Invalid
    Categories per text column, ML Anomalies, JSON Rule Violations; so a
    category appears exactly when its count is positive. *)
Theorem issue_counts_positive_in_fixed_order
  (E : Env) (g : N) (raw : RawTable) (rules_path : option string)
  (bad : DataFrame) (report : list section) (summary : Summary) :
  NoDup (header raw) ->
  validate_dataset E g raw rules_path = Ok (bad, report, summary) ->
  exists df,
    load_dataset E raw = Ok df
    /\ summary = filter positive (categories E g df rules_path)
    /\ forall k n, In (k, n) (categories E g df rules_path) ->
                   (In k (keys summary) <-> 0 < n).
Proof.
  intros Hh H. apply validate_dataset_Ok in H.
  destruct H as (df & jr & st & L & D & _ & _ & ->).
  destruct (load_dataset_columns _ _ _ L) as [Hc Hne].
  assert (Hnd : NoDup (keys (categories E g df rules_path)))
    by (apply NoDup_keys_categories; rewrite Hc; exact Hh).
  assert (S : issues_summary st = filter positive (categories E g df rules_path)).
  { rewrite (run_detectors_summary _ _ _ _ _ _ (eq_ind_r (fun c => c <> []) Hne Hc) D).
    rewrite fold_add_entries; [reflexivity | exact Hnd]. }
  exists df. split; [exact L|]. split; [exact S|].
  intros k n Hin. rewrite S. split.
  - intros Hk. unfold keys in Hk. apply in_map_iff in Hk.
    destruct Hk as [[k' n'] [Ek Hk]]. simpl in Ek. subst k'.
    apply filter_In in Hk. destruct Hk as [Hk P].
    rewrite (keys_functional _ _ _ _ Hnd Hin Hk).
    unfold positive in P. simpl in P. apply Nat.ltb_lt in P. exact P.
  - intros Hn. unfold keys. apply in_map_iff. exists (k, n). split;
      [reflexivity|]. apply filter_In. split; [exact Hin|].
    unfold positive. simpl. apply Nat.ltb_lt. exact Hn.
Qed.

Lemma issue_counts_positive_in_fixed_order_witness :
  exists bad report summary,
    validate_dataset example_env 0%N shop_table (Some "rules.json")
    = Ok (bad, report, summary)
    /\ keys summary
       = ["Missing Values"; "Duplicate Rows"; "Negative Values (price)";
          "Invalid Categories (name)"; "ML Anomalies"; "JSON Rule Violations"]
    /\ exists df,
         load_dataset example_env shop_table = Ok df
         /\ summary
            = filter positive
                (categories example_env 0%N df (Some "rules.json"))
         /\ forall k n,
              In (k, n) (categories example_env 0%N df (Some "rules.json")) ->
              (In k (keys summary) <-> 0 < n).
Proof.
  eexists. eexists. eexists. split; [vm_compute; reflexivity|].
  split; [vm_compute; reflexivity|].
  eapply (issue_counts_positive_in_fixed_order example_env 0%N shop_table
            (Some "rules.json")).
  - repeat constructor; simpl; intuition discriminate.
  - vm_compute. reflexivity.
Defined.

(** ** Determinism *)

Lemma ml_outliers_generator (E : Env) (g g' : N) (ml_df : DataFrame) :
  seeded_forest_is_deterministic E ->
  ml_outliers E g ml_df = ml_outliers E g' ml_df.
Proof. intros H. unfold ml_outliers. rewrite (H _ _ g g'). reflexivity. Qed.

Lemma run_detectors_generator (E : Env) (g g' : N) (df : DataFrame)
  (rp : option string) :
  seeded_forest_is_deterministic E ->
  run_detectors E g df rp = run_detectors E g' df rp.
Proof.
  intros H. unfold run_detectors, ml_anomalies.
  destruct (foldM (negative_values df) _ _) as [s3|e]; [|reflexivity].
  cbn [bind]. destruct (foldM (outliers df) _ s3) as [s4|e]; [|reflexivity].
  cbn [bind].
  destruct (foldM (invalid_categories df) _ s4) as [s5|e]; [|reflexivity].
  cbn [bind]. rewrite (ml_outliers_generator E g g' _ H). reflexivity.
Qed.

(** C8.  Two runs of [validate_dataset] on the same dataset and rule set
    return the same flagged rows, the same report and the same issue counts,
    whatever the state of the global random generator at each run: the
    isolation forest is seeded with 42 and nothing else reads the
    generator. *)
Theorem validate_dataset_deterministic
  (E : Env) (g g' : N) (raw : RawTable) (rules_path : option string) :
  seeded_forest_is_deterministic E ->
  validate_dataset E g raw rules_path = validate_dataset E g' raw rules_path.
Proof.
  intros H. unfold validate_dataset.
  destruct (load_dataset E raw) as [df|e]; [|reflexivity].
  cbn [bind]. rewrite (run_detectors_generator E g g' df rules_path H).
  reflexivity.
Qed.

Lemma validate_dataset_deterministic_witness :
  seeded_forest_is_deterministic example_env
  /\ validate_dataset example_env 0%N shop_table (Some "rules.json")
     = validate_dataset example_env 1%N shop_table (Some "rules.json").
Proof.
  assert (H : seeded_forest_is_deterministic example_env)
    by (intros c seed g g' X; reflexivity).
  split; [exact H|].
  apply (validate_dataset_deterministic example_env 0%N 1%N shop_table
           (Some "rules.json") H).
Defined.

(** ** Failure of an estimator *)

Lemma raises_bind {A B : Type} (m : result A) (k : A -> result B) :
  raises m -> raises (x <- m ;; k x).
Proof. intros [e ->]. exists e. reflexivity. Qed.

Lemma raises_bind_all {A B : Type} (m : result A) (k : A -> result B) :
  (forall a, raises (k a)) -> raises (x <- m ;; k x).
Proof.
  intros H. destruct m as [a|e]; simpl; [apply H | exists e; reflexivity].
Qed.

Lemma ml_outliers_raises (E : Env) (g : N) (df : DataFrame) :
  estimator_fails E g df ->
  raises (ml_outliers E g (ml_input df (select_dtypes is_numeric df))).
Proof.
  unfold estimator_fails, ml_outliers. intros [H|H].
  - apply raises_bind. exact H.
  - apply raises_bind_all. intros l1. apply raises_bind_all. intros o1.
    apply raises_bind. exact H.
Qed.

Lemma ml_anomalies_skipped (E : Env) (g : N) (df : DataFrame) (st : State) :
  select_dtypes is_numeric df = []
  \/ rows (ml_input df (select_dtypes is_numeric df)) = [] ->
  ml_anomalies E g df (select_dtypes is_numeric df) st = Ok st.
Proof.
  unfold ml_anomalies. intros [H|H].
  - rewrite H. reflexivity.
  - destruct (0 <? _); [|reflexivity]. unfold empty. rewrite H. reflexivity.
Qed.

Lemma ml_anomalies_raises (E : Env) (g : N) (df : DataFrame) (st : State) :
  select_dtypes is_numeric df <> [] ->
  rows (ml_input df (select_dtypes is_numeric df)) <> [] ->
  estimator_fails E g df ->
  raises (ml_anomalies E g df (select_dtypes is_numeric df) st).
Proof.
  intros Hc Hr F. unfold ml_anomalies.
  destruct (select_dtypes is_numeric df) as [|c cols] eqn:S; [contradiction|].
  cbn [length Nat.ltb Nat.leb]. unfold empty.
  destruct (rows (ml_input df (c :: cols))) eqn:R; [contradiction|].
  simpl length. cbn [Nat.eqb orb negb]. apply raises_bind.
  rewrite <- S. apply ml_outliers_raises. exact F.
Qed.

Lemma run_detectors_raises (E : Env) (g : N) (df : DataFrame)
  (rp : option string) :
  (forall st, raises (ml_anomalies E g df (select_dtypes is_numeric df) st)) ->
  raises (run_detectors E g df rp).
Proof.
  intros H. unfold run_detectors.
  apply raises_bind_all. intros s3. apply raises_bind_all. intros s4.
  apply raises_bind_all. intros s5. apply raises_bind. apply H.
Qed.

(** C2, as the code has it.  Without a numeric column, or without a row
    whose numeric values are all present, the anomaly detector is not run:
    it leaves the flagged rows and the issue counts as they are and cannot
    fail.  When it is run and one of the two algorithms raises, nothing
    catches the error and [validate_dataset] raises. *)
Theorem anomaly_detector_is_guarded_not_isolated
  (E : Env) (g : N) (raw : RawTable) (rules_path : option string)
  (df : DataFrame) :
  load_dataset E raw = Ok df ->
  (select_dtypes is_numeric df = []
   \/ rows (ml_input df (select_dtypes is_numeric df)) = [] ->
   forall st, ml_anomalies E g df (select_dtypes is_numeric df) st = Ok st)
  /\ (select_dtypes is_numeric df <> [] ->
      rows (ml_input df (select_dtypes is_numeric df)) <> [] ->
      estimator_fails E g df ->
      raises (validate_dataset E g raw rules_path)).
Proof.
  intros L. split.
  - intros H st. apply ml_anomalies_skipped. exact H.
  - intros Hc Hr F. unfold validate_dataset. rewrite L. cbn [bind].
    apply raises_bind. apply run_detectors_raises. intros st.
    apply ml_anomalies_raises; assumption.
Qed.

Lemma anomaly_detector_is_guarded_not_isolated_witness :
  (forall st,
      ml_anomalies example_env 0%N clean_frame
                   (select_dtypes is_numeric clean_frame) st = Ok st)
  /\ raises (validate_dataset example_env 0%N single_row_table None).
Proof.
  assert (L1 : load_dataset example_env clean_table = Ok clean_frame)
    by (vm_compute; reflexivity).
  assert (L2 : load_dataset example_env single_row_table = Ok single_row_frame)
    by (vm_compute; reflexivity).
  split.
  - apply (proj1 (anomaly_detector_is_guarded_not_isolated
                    example_env 0%N clean_table None clean_frame L1)).
    left. reflexivity.
  - apply (proj2 (anomaly_detector_is_guarded_not_isolated
                    example_env 0%N single_row_table None single_row_frame L2)).
    + vm_compute. discriminate.
    + vm_compute. discriminate.
    + right. eexists. vm_compute. reflexivity.
Defined.

(** The claim C2 fails: on a dataset with one complete row the local outlier
    factor cannot run, and the run ends with its error. *)
Lemma anomaly_failure_aborts_the_run :
  load_dataset example_env single_row_table = Ok single_row_frame
  /\ LocalOutlierFactor_fit_predict example_env n_neighbors contamination
       (to_numpy (ml_input single_row_frame
                           (select_dtypes is_numeric single_row_frame)))
     = Raise (EstimatorError "Expected n_neighbors < n_samples_fit")
  /\ validate_dataset example_env 0%N single_row_table None
     = Raise (EstimatorError "Expected n_neighbors < n_samples_fit").
Proof. repeat split; vm_compute; reflexivity. Qed.

(** ** Loading the rule set *)












(** ** Missing markers and duplicates *)






Lemma token_missing (na : list string) (line : list string) (k : nat) (s : string) :
  token na line k = Some s -> nth_error line k = Some s.
Proof.
  unfold token. destruct (nth_error line k) as [t|]; [|discriminate].
  destruct (mem t (na ++ STR_NA_VALUES)); [discriminate|]. intros H. exact H.
Qed.







(** ** Flagged rows and the dataset *)

(** C1 fails on the code.  On a dataset with a text column, the row the
    anomaly detector flags carries the numeric columns only: under [name] it
    is missing, and no row of the dataset has a missing name, so the flagged
    rows are not all rows of the dataset. *)
Theorem ml_anomaly_row_is_not_verbatim :
  exists df bad report summary,
    load_dataset example_env anomaly_table = Ok df
    /\ validate_dataset example_env 0%N anomaly_table None
       = Ok (bad, report, summary)
    /\ In (Row 21 [NA; Num (5000 # 1)%Q; Text "ML_anomaly"]) (rows bad)
    /\ columns bad = ["name"; "price"; "issue"]
    /\ nth_error (rows df) 21 = Some (Row 21 [Text "r22"; Num (5000 # 1)%Q])
    /\ ~ verbatim df bad.
Proof.
  eexists. eexists. eexists. eexists.
  split; [vm_compute; reflexivity|].
  split; [vm_compute; reflexivity|].
  split; [simpl; right; left; reflexivity|].
  split; [reflexivity|].
  split; [reflexivity|].
  intros V.
  destruct (V (Row 21 [NA; Num (5000 # 1)%Q; Text "ML_anomaly"])) as [r0 [H0 Hc]].
  { simpl. right. left. reflexivity. }
  specialize (Hc "name" (or_introl eq_refl)).
  simpl in H0.
  repeat (destruct H0 as [H0|H0]; [subst r0; vm_compute in Hc; discriminate Hc|]).
  exact H0.
Qed.

(** ** Where flagged rows come from *)

Lemma all_rows_concat (P : nat -> (string -> cell) -> Prop) (f g : DataFrame) :
  extensional P -> all_rows P f -> all_rows P g -> all_rows P (concat f g).
Proof.
  intros HP Hf Hg r Hr. rewrite rows_concat in Hr. apply in_app_or in Hr.
  destruct Hr as [Hr|Hr]; apply in_map_iff in Hr; destruct Hr as [r0 [<- Hr]].
  - apply (HP _ (cell_at f r0)); [|exact (Hf r0 Hr)].
    intros c. unfold cell_at. rewrite columns_concat, cell_of_reindex_l.
    reflexivity.
  - apply (HP _ (cell_at g r0)); [|exact (Hg r0 Hr)].
    intros c. unfold cell_at. rewrite columns_concat, cell_of_reindex_r.
    reflexivity.
Qed.

Lemma all_rows_loc_mask (P : nat -> (string -> cell) -> Prop)
  (mask : list bool) (f : DataFrame) :
  all_rows P f -> all_rows P (loc_mask mask f).
Proof.
  intros Hf r Hr. simpl in Hr. apply select_In in Hr. apply (Hf r Hr).
Qed.

Lemma cell_at_assign_issue (lbl : string) (f : DataFrame) (r : row)
  (c : string) :
  cell_of (assign_columns f) c
          (map (fun c' => if String.eqb c' "issue" then Text lbl
                          else cell_of (columns f) c' (cells r))
               (assign_columns f))
  = if String.eqb c "issue" then Text lbl else cell_at f r c.
Proof.
  destruct (mem c (assign_columns f)) eqn:M.
  - rewrite cell_of_map by exact M. reflexivity.
  - rewrite cell_of_absent by exact M.
    rewrite mem_assign_columns in M. apply orb_false_iff in M.
    destruct M as [M1 M2]. rewrite M2. unfold cell_at.
    rewrite cell_of_absent by exact M1. reflexivity.
Qed.

Lemma all_rows_assign_issue (P : nat -> (string -> cell) -> Prop)
  (lbl : string) (f : DataFrame) :
  extensional P ->
  (forall r, In r (rows f) ->
     P (index r)
       (fun c => if String.eqb c "issue" then Text lbl else cell_at f r c)) ->
  all_rows P (assign_issue lbl f).
Proof.
  intros HP Hf r Hr. unfold assign_issue in Hr. simpl in Hr.
  apply in_map_iff in Hr. destruct Hr as [r0 [<- Hr]]. simpl.
  eapply HP; [|apply (Hf r0 Hr)].
  intros c. unfold cell_at. simpl. fold (assign_columns f).
  symmetry. apply cell_at_assign_issue.
Qed.

Lemma all_rows_select_columns (df : DataFrame) (cols : list string) :
  forall r, In r (rows (select_columns df cols)) ->
    exists r0, In r0 (rows df) /\ index r0 = index r
               /\ forall c, cell_at (select_columns df cols) r c
                            = if mem c cols then cell_at df r0 c else NA.
Proof.
  intros r Hr. simpl in Hr. apply in_map_iff in Hr.
  destruct Hr as [r0 [<- Hr]]. exists r0. split; [exact Hr|].
  split; [reflexivity|]. intros c. unfold cell_at. simpl.
  destruct (mem c cols) eqn:M.
  - rewrite cell_of_map by exact M. reflexivity.
  - apply cell_of_absent. exact M.
Qed.

Lemma traced_extensional (df : DataFrame) : extensional (traced df).
Proof.
  intros i f1 f2 H (r0 & Hr & Hi & [F|[L F]]); exists r0;
    (split; [exact Hr|]); (split; [exact Hi|]).
  - left. intros c Hc. rewrite <- H. apply F. exact Hc.
  - right. split; [rewrite <- H; exact L|].
    intros c Hc. rewrite <- H. apply F. exact Hc.
Qed.

Lemma numeric_part_extensional (df : DataFrame) : extensional (numeric_part df).
Proof.
  intros i f1 f2 H (r0 & Hr & Hi & F). exists r0.
  split; [exact Hr|]. split; [exact Hi|]. intros c. rewrite <- H. apply F.
Qed.

(** The rows a detector takes from the dataset itself are full copies. *)
Lemma traced_assign_mask (df : DataFrame) (lbl : string) (mask : list bool) :
  all_rows (traced df) (assign_issue lbl (loc_mask mask df)).
Proof.
  apply all_rows_assign_issue; [apply traced_extensional|].
  intros r Hr. simpl in Hr. apply select_In in Hr.
  exists r. split; [exact Hr|]. split; [reflexivity|]. left.
  intros c Hc. apply String.eqb_neq in Hc. rewrite Hc. reflexivity.
Qed.

Lemma traced_record_issue (df : DataFrame) (cat lbl : string)
  (found : DataFrame) (st : State) :
  all_rows (traced df) (assign_issue lbl found) ->
  all_rows (traced df) (bad_rows st) ->
  all_rows (traced df) (bad_rows (record_issue cat lbl found st)).
Proof.
  intros Hf Hs. unfold record_issue. destruct (empty found); [exact Hs|].
  simpl. apply all_rows_concat; [apply traced_extensional | exact Hs | exact Hf].
Qed.

Lemma foldM_invariant {A S : Type} (Inv : S -> Prop)
  (f : A -> S -> result S) (l : list A) :
  (forall a s s', f a s = Ok s' -> Inv s -> Inv s') ->
  forall s s', foldM f l s = Ok s' -> Inv s -> Inv s'.
Proof.
  intros Hf. induction l as [|a l IH]; intros s s' H Hs; simpl in H.
  - injection H as <-. exact Hs.
  - destruct (f a s) as [s1|e] eqn:F; simpl in H; [|discriminate].
    apply (IH _ _ H). apply (Hf _ _ _ F Hs).
Qed.

Lemma traced_ml_outliers (E : Env) (g : N) (df out : DataFrame) :
  ml_outliers E g (ml_input df (select_dtypes is_numeric df)) = Ok out ->
  all_rows (traced df) (assign_issue "ML_anomaly" out).
Proof.
  intros H.
  assert (Hin : all_rows (numeric_part df)
                         (ml_input df (select_dtypes is_numeric df))).
  { unfold ml_input, dropna. apply all_rows_loc_mask. intros r Hr.
    destruct (all_rows_select_columns df _ r Hr) as (r0 & H0 & Hi & Hc).
    exists r0. split; [exact H0|]. split; [exact Hi | exact Hc]. }
  assert (Hout : all_rows (numeric_part df) out).
  { unfold ml_outliers, getitem_mask in H.
    destruct (IsolationForest_fit_predict E _ _ g _) as [l1|e]; simpl in H;
      [|discriminate].
    destruct (length (is_outlier_label l1) =? _); simpl in H; [|discriminate].
    destruct (LocalOutlierFactor_fit_predict E _ _ _) as [l2|e]; simpl in H;
      [|discriminate].
    destruct (length (is_outlier_label l2) =? _); simpl in H; [|discriminate].
    injection H as <-. unfold drop_duplicates. apply all_rows_loc_mask.
    apply all_rows_concat; [apply numeric_part_extensional | |];
      apply all_rows_loc_mask; exact Hin. }
  apply all_rows_assign_issue; [apply traced_extensional|].
  intros r Hr. destruct (Hout r Hr) as (r0 & H0 & Hi & Hc).
  exists r0. split; [exact H0|]. split; [exact Hi|]. right.
  split; [reflexivity|]. intros c Hne. apply String.eqb_neq in Hne.
  rewrite Hne. apply Hc.
Qed.

Lemma traced_add_violations (df : DataFrame) (lbl : string) (mask : list bool)
  (v : DataFrame) :
  all_rows (traced df) v -> all_rows (traced df) (add_violations lbl df mask v).
Proof.
  intros Hv. unfold add_violations. destruct (empty _); [exact Hv|].
  apply all_rows_concat;
    [apply traced_extensional | exact Hv | apply traced_assign_mask].
Qed.

Lemma traced_apply_rule (df : DataFrame) (item : string * Rule)
  (v v' : DataFrame) :
  apply_rule df item v = Ok v' ->
  all_rows (traced df) v -> all_rows (traced df) v'.
Proof.
  destruct item as [col rule]. unfold apply_rule.
  destruct (negb (mem col (columns df))).
  { intros H. injection H as <-. tauto. }
  unfold check_min, check_max, check_allowed. intros H Hv.
  destruct (rule_min rule) as [lo|];
    [destruct (series_lt (getcol df col) lo) as [m1|e]; simpl in H;
       [|discriminate]|];
    (destruct (rule_max rule) as [hi|];
     [destruct (series_gt (getcol df col) hi) as [m2|e]; simpl in H;
        [|discriminate]|]);
    destruct (rule_allowed rule); simpl in H; injection H as <-;
    repeat apply traced_add_violations; exact Hv.
Qed.

Lemma traced_negative_values (df : DataFrame) (col : string) (s s' : State) :
  negative_values df col s = Ok s' ->
  all_rows (traced df) (bad_rows s) -> all_rows (traced df) (bad_rows s').
Proof.
  unfold negative_values.
  destruct (series_lt (getcol df col) 0%Q) as [mask|e]; simpl; [|discriminate].
  intros H. injection H as <-. apply traced_record_issue.
  apply traced_assign_mask.
Qed.

Lemma traced_outliers (df : DataFrame) (col : string) (s s' : State) :
  outliers df col s = Ok s' ->
  all_rows (traced df) (bad_rows s) -> all_rows (traced df) (bad_rows s').
Proof.
  unfold outliers. intros H. injection H as <-. apply traced_record_issue.
  apply traced_assign_mask.
Qed.

Lemma traced_invalid_categories (df : DataFrame) (col : string) (s s' : State) :
  invalid_categories df col s = Ok s' ->
  all_rows (traced df) (bad_rows s) -> all_rows (traced df) (bad_rows s').
Proof.
  unfold invalid_categories. intros H. injection H as <-.
  apply traced_record_issue. apply traced_assign_mask.
Qed.

Lemma traced_ml_anomalies (E : Env) (g : N) (df : DataFrame) (s s' : State) :
  ml_anomalies E g df (select_dtypes is_numeric df) s = Ok s' ->
  all_rows (traced df) (bad_rows s) -> all_rows (traced df) (bad_rows s').
Proof.
  unfold ml_anomalies. destruct (0 <? _).
  2:{ intros H. injection H as <-. tauto. }
  destruct (negb (empty _)).
  2:{ intros H. injection H as <-. tauto. }
  destruct (ml_outliers E g _) as [out|e] eqn:M; simpl; [|discriminate].
  intros H. injection H as <-. apply traced_record_issue.
  apply (traced_ml_outliers E g df out M).
Qed.

Lemma traced_json_rules (E : Env) (df : DataFrame) (rp : option string)
  (s s' : State) (json_rows : DataFrame) :
  json_rules E df rp s = Ok (json_rows, s') ->
  all_rows (traced df) (bad_rows s) -> all_rows (traced df) (bad_rows s').
Proof.
  unfold json_rules. destruct rp as [p|].
  2:{ intros H. injection H as _ <-. tauto. }
  destruct (rules_available E (Some p)).
  2:{ intros H. injection H as _ <-. tauto. }
  destruct (json_load E p) as [rules|e]; simpl; [|discriminate].
  destruct (apply_json_rules df rules) as [v|e] eqn:A; simpl; [|discriminate].
  assert (Hv : all_rows (traced df) v).
  { unfold apply_json_rules in A.
    apply (foldM_invariant (all_rows (traced df)) (apply_rule df) rules
             (traced_apply_rule df) _ _ A).
    intros r []. }
  destruct (empty v); intros H Hs; injection H as _ <-; [exact Hs|].
  simpl. apply all_rows_concat; [apply traced_extensional | exact Hs | exact Hv].
Qed.

(** Every flagged row of a run is traced to the dataset row with its index
    label: a full copy, the column [issue] apart, or, under the label
    [ML_anomaly], a copy of the numeric columns with the others missing. *)
Theorem flagged_rows_are_traced (E : Env) (g : N) (df : DataFrame)
  (rp : option string) (json_rows : DataFrame) (st : State) :
  run_detectors E g df rp = Ok (json_rows, st) ->
  all_rows (traced df) (bad_rows st).
Proof.
  intros H. apply run_detectors_stages in H.
  destruct H as (s3 & s4 & s5 & s6 & H3 & H4 & H5 & H6 & H7).
  apply (traced_json_rules _ _ _ _ _ _ H7).
  apply (traced_ml_anomalies _ _ _ _ _ H6).
  apply (foldM_invariant (fun s => all_rows (traced df) (bad_rows s))
           _ _ (traced_invalid_categories df) _ _ H5).
  apply (foldM_invariant (fun s => all_rows (traced df) (bad_rows s))
           _ _ (traced_outliers df) _ _ H4).
  apply (foldM_invariant (fun s => all_rows (traced df) (bad_rows s))
           _ _ (traced_negative_values df) _ _ H3).
  repeat apply traced_record_issue; try apply traced_assign_mask.
  intros r [].
Qed.

(** * Further properties of the engine *)

(** ** The aggregation *)

Lemma foldM_hits {A : Type} (f : A -> State -> result State)
  (h : A -> list (nat * cell)) (l : list A) :
  (forall a st st', f a st = Ok st' ->
     hits (bad_rows st') = hits (bad_rows st) ++ h a) ->
  forall st st', foldM f l st = Ok st' ->
    hits (bad_rows st') = hits (bad_rows st) ++ flat_map h l.
Proof.
  intros Hf. induction l as [|a l IH]; intros st st' H; simpl in H.
  - injection H as <-. simpl. rewrite app_nil_r. reflexivity.
  - destruct (f a st) as [s1|e] eqn:F; simpl in H; [|discriminate].
    simpl. rewrite (IH _ _ H), (Hf _ _ _ F), <- app_assoc. reflexivity.
Qed.

Lemma negative_values_hits (df : DataFrame) (col : string) (st st' : State) :
  columns df <> [] ->
  negative_values df col st = Ok st' ->
  hits (bad_rows st') = hits (bad_rows st) ++ negative_hits df col.
Proof.
  intros Hc. unfold negative_values, negative_hits, series_lt.
  destruct (series_cmp Qlt_bool (getcol df col) 0%Q) as [mask|e] eqn:S; simpl;
    [|discriminate].
  intros H. injection H as <-. apply series_cmp_Ok in S. subst mask.
  rewrite record_issue_hits by exact Hc. simpl. rewrite select_column.
  reflexivity.
Qed.

Lemma outliers_hits (df : DataFrame) (col : string) (st st' : State) :
  columns df <> [] ->
  outliers df col st = Ok st' ->
  hits (bad_rows st') = hits (bad_rows st) ++ outlier_hits df col.
Proof.
  intros Hc. unfold outliers, outlier_hits. intros H. injection H as <-.
  rewrite record_issue_hits by exact Hc. rewrite outliers_of_rows. reflexivity.
Qed.

Lemma invalid_categories_hits (df : DataFrame) (col : string) (st st' : State) :
  columns df <> [] ->
  invalid_categories df col st = Ok st' ->
  hits (bad_rows st') = hits (bad_rows st) ++ invalid_hits df col.
Proof.
  intros Hc. unfold invalid_categories, invalid_hits. intros H.
  injection H as <-. rewrite record_issue_hits by exact Hc. simpl.
  rewrite select_column. reflexivity.
Qed.

Lemma ml_anomalies_hits (E : Env) (g : N) (df : DataFrame) (st st' : State) :
  ml_anomalies E g df (select_dtypes is_numeric df) st = Ok st' ->
  hits (bad_rows st') = hits (bad_rows st) ++ ml_hits E g df.
Proof.
  unfold ml_anomalies, ml_hits.
  destruct (0 <? length (select_dtypes is_numeric df)) eqn:G; simpl.
  2:{ intros H. injection H as <-. rewrite app_nil_r. reflexivity. }
  destruct (negb (empty (ml_input df (select_dtypes is_numeric df)))); simpl.
  2:{ intros H. injection H as <-. rewrite app_nil_r. reflexivity. }
  destruct (ml_outliers E g (ml_input df (select_dtypes is_numeric df)))
    as [out|e] eqn:M; simpl; [|discriminate].
  intros H. injection H as <-. apply record_issue_hits.
  apply (ml_outliers_columns _ _ _ _ M). simpl.
  apply Nat.ltb_lt in G. destruct (select_dtypes is_numeric df);
    [simpl in G; lia | discriminate].
Qed.

Lemma json_rules_hits (E : Env) (df : DataFrame) (rp : option string)
  (st st' : State) (json_rows : DataFrame) :
  json_rules E df rp st = Ok (json_rows, st') ->
  hits json_rows = json_hits E df rp
  /\ hits (bad_rows st') = hits (bad_rows st) ++ json_hits E df rp.
Proof.
  unfold json_rules, json_hits. destruct rp as [p|].
  2:{ intros H. injection H as <- <-. rewrite app_nil_r. split; reflexivity. }
  destruct (rules_available E (Some p)).
  2:{ intros H. injection H as <- <-. rewrite app_nil_r. split; reflexivity. }
  destruct (json_load E p) as [rules|e]; simpl; [|discriminate].
  destruct (apply_json_rules df rules) as [v|e] eqn:A; simpl; [|discriminate].
  pose proof (apply_json_rules_hits _ _ _ A) as Hv.
  rewrite (apply_json_rules_empty _ _ _ A).
  destruct (len v =? 0) eqn:L; intros H; injection H as <- <-.
  - split; [exact Hv|]. rewrite <- Hv. apply Nat.eqb_eq in L.
    unfold hits, len in *. destruct (rows v); [|discriminate].
    simpl. rewrite app_nil_r. reflexivity.
  - split; [exact Hv|]. simpl. rewrite hits_concat, Hv. reflexivity.
Qed.

Lemma missing_rows_filter (df : DataFrame) :
  rows (missing_rows df) = filter (has_missing df) (rows df).
Proof. unfold missing_rows. simpl. apply select_map_filter. Qed.

Lemma hits_in_detection_order
  (E : Env) (g : N) (df : DataFrame) (rules_path : option string)
  (json_rows : DataFrame) (st : State) :
  columns df <> [] ->
  run_detectors E g df rules_path = Ok (json_rows, st) ->
  hits (bad_rows st) = detector_hits E g df rules_path
  /\ hits json_rows = json_hits E df rules_path.
Proof.
  intros Hc H. apply run_detectors_stages in H.
  destruct H as (s3 & s4 & s5 & s6 & H3 & H4 & H5 & H6 & H7).
  apply (foldM_hits _ (negative_hits df)) in H3;
    [|intros a s s'; apply negative_values_hits; exact Hc].
  apply (foldM_hits _ (outlier_hits df)) in H4;
    [|intros a s s'; apply outliers_hits; exact Hc].
  apply (foldM_hits _ (invalid_hits df)) in H5;
    [|intros a s s'; apply invalid_categories_hits; exact Hc].
  apply ml_anomalies_hits in H6. apply json_rules_hits in H7.
  destruct H7 as [HJ H7]. split; [|exact HJ].
  rewrite H7, H6, H5, H4, H3.
  rewrite !record_issue_hits by exact Hc. simpl hits at 1.
  unfold detector_hits, missing_hits, duplicate_hits.
  rewrite missing_rows_filter. simpl. rewrite <- !app_assoc. reflexivity.
Qed.

(** X1.  The flagged rows of a run are the outputs of the detectors, one
    after the other in the order of detection and each row under the label
    of its detector: missing, duplicate, negatives per numeric column,
    outliers per numeric column, invalid categories per text column,
    anomalies, rule violations.  Nothing is merged or reordered. *)
Theorem flagged_rows_in_detection_order
  (E : Env) (g : N) (df : DataFrame) (rules_path : option string)
  (json_rows : DataFrame) (st : State) :
  columns df <> [] ->
  run_detectors E g df rules_path = Ok (json_rows, st) ->
  hits (bad_rows st) = detector_hits E g df rules_path
  /\ hits json_rows = json_hits E df rules_path.
Proof. apply hits_in_detection_order. Qed.

Lemma flagged_rows_in_detection_order_witness :
  exists df json_rows st,
    load_dataset example_env shop_table = Ok df
    /\ run_detectors example_env 0%N df (Some "rules.json") = Ok (json_rows, st)
    /\ hits (bad_rows st) = detector_hits example_env 0%N df (Some "rules.json").
Proof.
  eexists. eexists. eexists.
  split; [vm_compute; reflexivity|].
  split; [vm_compute; reflexivity|].
  refine (proj1 (flagged_rows_in_detection_order example_env 0%N _
                   (Some "rules.json") _ _ _ _)).
  - simpl. discriminate.
  - vm_compute. reflexivity.
Defined.

(** ** Flagged rows and issue counts *)

Lemma len_hits (f : DataFrame) : len f = length (hits f).
Proof. unfold len, hits. rewrite length_map. reflexivity. Qed.

Lemma record_issue_len (category label : string) (found : DataFrame)
  (st : State) :
  columns found <> [] ->
  len (bad_rows (record_issue category label found st))
  = len (bad_rows st) + len found.
Proof.
  intros Hc. rewrite !len_hits, record_issue_hits by exact Hc.
  rewrite length_app. unfold labelled, hits. rewrite !length_map. reflexivity.
Qed.

Lemma total_app (a b : Summary) : total (a ++ b) = total a + total b.
Proof.
  unfold total. induction a as [|[k n] a IH]; simpl; [reflexivity|].
  rewrite IH. lia.
Qed.

Lemma total_filter_positive (d : Summary) : total (filter positive d) = total d.
Proof.
  unfold total. induction d as [|[k n] d IH]; simpl; [reflexivity|].
  unfold positive at 1. simpl. destruct n as [|n]; simpl; rewrite IH; reflexivity.
Qed.

Lemma foldM_len {A : Type} (f : A -> State -> result State)
  (entry : A -> string * nat) (l : list A) :
  (forall a st st', f a st = Ok st' ->
     len (bad_rows st') = len (bad_rows st) + snd (entry a)) ->
  forall st st', foldM f l st = Ok st' ->
    len (bad_rows st') = len (bad_rows st) + total (map entry l).
Proof.
  intros Hf. induction l as [|a l IH]; intros st st' H; simpl in H.
  - injection H as <-. unfold total. simpl. lia.
  - destruct (f a st) as [s1|e] eqn:F; simpl in H; [|discriminate].
    rewrite (IH _ _ H), (Hf _ _ _ F). unfold total. simpl. lia.
Qed.

Lemma negative_values_len (df : DataFrame) (col : string) (st st' : State) :
  columns df <> [] ->
  negative_values df col st = Ok st' ->
  len (bad_rows st') = len (bad_rows st) + snd (negative_entry df col).
Proof.
  intros Hc. unfold negative_values, negative_entry, negative_count.
  destruct (series_lt (getcol df col) 0%Q) as [mask|e]; simpl; [|discriminate].
  intros H. injection H as <-. rewrite record_issue_len by exact Hc.
  reflexivity.
Qed.

Lemma outliers_len (df : DataFrame) (col : string) (st st' : State) :
  columns df <> [] ->
  outliers df col st = Ok st' ->
  len (bad_rows st') = len (bad_rows st) + snd (outlier_entry df col).
Proof.
  intros Hc. unfold outliers. intros H. injection H as <-.
  rewrite record_issue_len by exact Hc. reflexivity.
Qed.

Lemma invalid_categories_len (df : DataFrame) (col : string) (st st' : State) :
  columns df <> [] ->
  invalid_categories df col st = Ok st' ->
  len (bad_rows st') = len (bad_rows st) + snd (invalid_entry df col).
Proof.
  intros Hc. unfold invalid_categories. intros H. injection H as <-.
  rewrite record_issue_len by exact Hc. reflexivity.
Qed.

Lemma ml_anomalies_len (E : Env) (g : N) (df : DataFrame) (st st' : State) :
  ml_anomalies E g df (select_dtypes is_numeric df) st = Ok st' ->
  len (bad_rows st') = len (bad_rows st) + ml_count E g df.
Proof.
  unfold ml_anomalies, ml_count.
  destruct (0 <? length (select_dtypes is_numeric df)) eqn:G; simpl.
  2:{ intros H. injection H as <-. lia. }
  destruct (negb (empty (ml_input df (select_dtypes is_numeric df)))); simpl.
  2:{ intros H. injection H as <-. lia. }
  destruct (ml_outliers E g (ml_input df (select_dtypes is_numeric df)))
    as [out|e] eqn:M; simpl; [|discriminate].
  intros H. injection H as <-. apply record_issue_len.
  apply (ml_outliers_columns _ _ _ _ M). simpl.
  apply Nat.ltb_lt in G. destruct (select_dtypes is_numeric df);
    [simpl in G; lia | discriminate].
Qed.

Lemma json_rules_len (E : Env) (df : DataFrame) (rp : option string)
  (st st' : State) (json_rows : DataFrame) :
  json_rules E df rp st = Ok (json_rows, st') ->
  len (bad_rows st') = len (bad_rows st) + json_count E df rp.
Proof.
  unfold json_rules, json_count. destruct rp as [p|].
  2:{ intros H. injection H as _ <-. lia. }
  destruct (rules_available E (Some p)).
  2:{ intros H. injection H as _ <-. lia. }
  destruct (json_load E p) as [rules|e]; simpl; [|discriminate].
  destruct (apply_json_rules df rules) as [v|e] eqn:A; simpl; [|discriminate].
  rewrite (apply_json_rules_empty _ _ _ A).
  destruct (len v =? 0) eqn:L; intros H; injection H as _ <-.
  - apply Nat.eqb_eq in L. lia.
  - rewrite !len_hits. simpl. rewrite hits_concat, length_app. reflexivity.
Qed.

Lemma run_detectors_len (E : Env) (g : N) (df : DataFrame)
  (rp : option string) (json_rows : DataFrame) (st : State) :
  columns df <> [] ->
  run_detectors E g df rp = Ok (json_rows, st) ->
  len (bad_rows st) = total (categories E g df rp).
Proof.
  intros Hc H. apply run_detectors_stages in H.
  destruct H as (s3 & s4 & s5 & s6 & H3 & H4 & H5 & H6 & H7).
  apply (foldM_len _ (negative_entry df)) in H3;
    [|intros a s s'; apply negative_values_len; exact Hc].
  apply (foldM_len _ (outlier_entry df)) in H4;
    [|intros a s s'; apply outliers_len; exact Hc].
  apply (foldM_len _ (invalid_entry df)) in H5;
    [|intros a s s'; apply invalid_categories_len; exact Hc].
  apply ml_anomalies_len in H6. apply json_rules_len in H7.
  rewrite H7, H6, H5, H4, H3. rewrite !record_issue_len by exact Hc.
  unfold categories. rewrite !total_app.
  assert (T2 : forall a n b m, total [(a, n); (b, m)] = n + m)
    by (intros; unfold total; simpl; lia).
  rewrite !T2. change (len (bad_rows initial)) with 0. lia.
Qed.

(** X2.  The number of flagged rows a run returns is the sum of its issue
    counts: every flagged row is counted once, under the category of the
    detector that flagged it. *)
Theorem flagged_rows_count_is_sum_of_issue_counts
  (E : Env) (g : N) (raw : RawTable) (rules_path : option string)
  (bad : DataFrame) (report : list section) (summary : Summary) :
  NoDup (header raw) ->
  validate_dataset E g raw rules_path = Ok (bad, report, summary) ->
  len bad = total summary.
Proof.
  intros Hh H. apply validate_dataset_Ok in H.
  destruct H as (df & jr & st & L & D & _ & -> & ->).
  destruct (load_dataset_columns _ _ _ L) as [Hc Hne].
  assert (Hc' : columns df <> []) by (rewrite Hc; exact Hne).
  rewrite (run_detectors_len _ _ _ _ _ _ Hc' D).
  rewrite (run_detectors_summary _ _ _ _ _ _ Hc' D).
  rewrite fold_add_entries.
  - rewrite app_nil_l, total_filter_positive. reflexivity.
  - apply NoDup_keys_categories. rewrite Hc. exact Hh.
Qed.

Lemma flagged_rows_count_is_sum_of_issue_counts_witness :
  exists bad report summary,
    validate_dataset example_env 0%N shop_table (Some "rules.json")
    = Ok (bad, report, summary)
    /\ len bad = total summary.
Proof.
  eexists. eexists. eexists. split; [vm_compute; reflexivity|].
  eapply (flagged_rows_count_is_sum_of_issue_counts example_env 0%N shop_table
            (Some "rules.json")).
  - repeat constructor; simpl; intuition discriminate.
  - vm_compute. reflexivity.
Defined.

(** ** The report of a run that flags rows *)

Lemma labelled_text (lbl : string) (rs : list row) :
  Forall (fun h => is_text (snd h) = true) (labelled lbl rs).
Proof.
  unfold labelled. apply Forall_forall. intros h Hh.
  apply in_map_iff in Hh. destruct Hh as [r [<- _]]. reflexivity.
Qed.

Lemma Forall_flat_map_text {A : Type} (h : A -> list (nat * cell)) (l : list A) :
  (forall a, Forall (fun x => is_text (snd x) = true) (h a)) ->
  Forall (fun x => is_text (snd x) = true) (flat_map h l).
Proof.
  intros H. induction l as [|a l IH]; simpl; [constructor|].
  apply Forall_app. split; [apply H | exact IH].
Qed.

Lemma rule_hits_text (df : DataFrame) (item : string * Rule) :
  Forall (fun x => is_text (snd x) = true) (rule_hits df item).
Proof.
  destruct item as [col rule]. unfold rule_hits.
  destruct (mem col (columns df)); [|constructor].
  repeat (apply Forall_app; split);
    [destruct (rule_min rule) | destruct (rule_max rule)
     | destruct (rule_allowed rule)];
    try apply labelled_text; constructor.
Qed.

Lemma detector_hits_text (E : Env) (g : N) (df : DataFrame)
  (rp : option string) :
  Forall (fun x => is_text (snd x) = true) (detector_hits E g df rp).
Proof.
  unfold detector_hits. repeat (apply Forall_app; split).
  - apply labelled_text.
  - apply labelled_text.
  - apply Forall_flat_map_text. intros c. apply labelled_text.
  - apply Forall_flat_map_text. intros c. apply labelled_text.
  - apply Forall_flat_map_text. intros c. apply labelled_text.
  - unfold ml_hits. destruct (_ && _); [|constructor].
    destruct (ml_outliers E g _); [apply labelled_text | constructor].
  - unfold json_hits. destruct rp as [p|]; [|constructor].
    destruct (rules_available E (Some p)); [|constructor].
    destruct (json_load E p); [|constructor].
    apply Forall_flat_map_text. intros item. apply rule_hits_text.
Qed.

Lemma column_issue_hits (f : DataFrame) :
  column f "issue" = map snd (hits f).
Proof. unfold column, hits, cell_at. rewrite map_map. reflexivity. Qed.

Lemma str_contains_text (pat : string) (cs : list cell) :
  Forall (fun c => is_text c = true) cs ->
  exists mask, str_contains pat cs = Ok mask /\ length mask = length cs.
Proof.
  unfold str_contains. induction cs as [|c cs IH]; intros H.
  - exists []. split; reflexivity.
  - apply Forall_cons_iff in H. destruct H as [Hc H].
    destruct (IH H) as [mask [E L]]. destruct c as [| |t]; try discriminate.
    simpl. rewrite E. simpl. eexists. split; [reflexivity|]. simpl.
    rewrite L. reflexivity.
Qed.

Lemma issue_cells_text (E : Env) (g : N) (df : DataFrame) (rp : option string)
  (json_rows : DataFrame) (st : State) :
  columns df <> [] ->
  run_detectors E g df rp = Ok (json_rows, st) ->
  Forall (fun c => is_text c = true) (column (bad_rows st) "issue").
Proof.
  intros Hc D. rewrite column_issue_hits.
  destruct (hits_in_detection_order E g df rp json_rows st Hc D)
    as [H _].
  rewrite H. apply Forall_map.
  apply (detector_hits_text E g df rp).
Qed.

Lemma issue_column_present (E : Env) (g : N) (df : DataFrame)
  (rp : option string) (json_rows : DataFrame) (st : State) :
  columns df <> [] ->
  run_detectors E g df rp = Ok (json_rows, st) ->
  rows (bad_rows st) <> [] ->
  mem "issue" (columns (bad_rows st)) = true.
Proof.
  intros Hc D Hr. pose proof (issue_cells_text E g df rp json_rows st Hc D) as T.
  unfold column in T. destruct (rows (bad_rows st)) as [|r rs]; [contradiction|].
  simpl in T. apply Forall_cons_iff in T. destruct T as [T _].
  destruct (mem "issue" (columns (bad_rows st))) eqn:M; [reflexivity|].
  rewrite cell_of_absent in T by exact M. discriminate.
Qed.

Lemma label_section_Ok (ttl pat : string) (bad : DataFrame) :
  mem "issue" (columns bad) = true ->
  Forall (fun c => is_text c = true) (column bad "issue") ->
  exists s, label_section ttl pat bad = Ok s /\ title s = ttl.
Proof.
  intros M T. unfold label_section, getitem. rewrite M. cbn [bind].
  destruct (str_contains_text pat _ T) as [mask [E _]]. rewrite E. cbn [bind].
  eexists. split; [reflexivity|].
  unfold generate_html_section. destruct (empty _); reflexivity.
Qed.

Lemma title_generate_html_section (ttl : string) (f : DataFrame) (n : nat) :
  title (generate_html_section ttl f n) = ttl.
Proof. unfold generate_html_section. destruct (empty f); reflexivity. Qed.

(** X3.  When the detectors go through and flag at least one row,
    [validate_dataset] returns: the flagged rows and the issue counts of the
    detectors, and a report of seven sections under the fixed titles.  The
    labels it searches in the flagged rows are all strings, so building the
    report cannot fail. *)
Theorem run_returns_when_rows_are_flagged
  (E : Env) (g : N) (raw : RawTable) (rules_path : option string)
  (df json_rows : DataFrame) (st : State) :
  load_dataset E raw = Ok df ->
  run_detectors E g df rules_path = Ok (json_rows, st) ->
  rows (bad_rows st) <> [] ->
  exists report,
    validate_dataset E g raw rules_path
    = Ok (bad_rows st, report, issues_summary st)
    /\ map title report = report_titles.
Proof.
  intros L D Hr.
  destruct (load_dataset_columns _ _ _ L) as [Hc Hne].
  assert (Hc' : columns df <> []) by (rewrite Hc; exact Hne).
  pose proof (issue_column_present _ _ _ _ _ _ Hc' D Hr) as M.
  pose proof (issue_cells_text _ _ _ _ _ _ Hc' D) as T.
  destruct (label_section_Ok "Negative Values" "_negative" _ M T) as [s3 [E3 T3]].
  destruct (label_section_Ok "Outliers" "_outlier" _ M T) as [s4 [E4 T4]].
  destruct (label_section_Ok "Invalid Categories" "_invalid_category" _ M T)
    as [s5 [E5 T5]].
  unfold validate_dataset. rewrite L. cbn [bind]. rewrite D. cbn [bind].
  unfold html_report. rewrite E3. cbn [bind]. rewrite E4. cbn [bind].
  rewrite E5. cbn [bind]. unfold ml_section, getitem. rewrite M. cbn [bind].
  eexists. split; [reflexivity|].
  cbn [map]. rewrite !title_generate_html_section, T3, T4, T5. reflexivity.
Qed.

Lemma run_returns_when_rows_are_flagged_witness :
  exists bad report summary,
    validate_dataset example_env 0%N shop_table (Some "rules.json")
    = Ok (bad, report, summary)
    /\ map title report = report_titles.
Proof.
  assert (H : exists df jr st,
             load_dataset example_env shop_table = Ok df
             /\ run_detectors example_env 0%N df (Some "rules.json")
                = Ok (jr, st)
             /\ rows (bad_rows st) <> []).
  { eexists. eexists. eexists.
    split; [vm_compute; reflexivity|].
    split; [vm_compute; reflexivity|]. simpl. discriminate. }
  destruct H as (df & jr & st & L & D & Hr).
  destruct (run_returns_when_rows_are_flagged
              example_env 0%N shop_table (Some "rules.json") df jr st L D Hr)
    as [report [V T]].
  exists (bad_rows st), report, (issues_summary st). split; assumption.
Defined.

(** ** The sections of the report *)

Lemma select_length {A : Type} (mask : list bool) (l : list A) :
  length mask = length l -> length (select mask l) = count_true mask.
Proof.
  unfold count_true. revert l. induction mask as [|b mask IH]; intros [|a l] H;
    simpl in *; try discriminate; try reflexivity.
  injection H as H. destruct b; simpl; rewrite (IH l H); reflexivity.
Qed.





Lemma json_rules_rows_empty (E : Env) (df : DataFrame) (rp : option string)
  (st st' : State) (json_rows : DataFrame) :
  json_rules E df rp st = Ok (json_rows, st') ->
  empty json_rows = (len json_rows =? 0).
Proof.
  unfold json_rules. destruct rp as [p|].
  2:{ intros H. injection H as <- _. reflexivity. }
  destruct (rules_available E (Some p)).
  2:{ intros H. injection H as <- _. reflexivity. }
  destruct (json_load E p) as [rules|e]; simpl; [|discriminate].
  destruct (apply_json_rules df rules) as [v|e] eqn:A; simpl; [|discriminate].
  pose proof (apply_json_rules_empty _ _ _ A) as He.
  destruct (empty v) eqn:Ev; intros H; injection H as <- _;
    rewrite Ev; exact He.
Qed.



(** ** What can fail *)










(** ** Bounds on a text column *)

Lemma mapM_obj_cmp_text (op : Q -> Q -> bool) (v : Q) (cs : list cell)
  (s : string) :
  In (Text s) cs -> mapM (obj_cmp op v) cs = Raise TypeError.
Proof.
  induction cs as [|c cs IH]; intros H; [contradiction|].
  destruct H as [->|H]; [reflexivity|].
  simpl. destruct c as [|x|t]; simpl; try reflexivity;
    rewrite (IH H); reflexivity.
Qed.

Lemma series_cmp_text (op : Q -> Q -> bool) (df : DataFrame) (col : string)
  (v : Q) (s : string) :
  is_numeric (dtype_of df col) = false -> In (Text s) (column df col) ->
  series_cmp op (getcol df col) v = Raise TypeError.
Proof.
  intros Hd Hs. unfold series_cmp. simpl. rewrite Hd.
  apply (mapM_obj_cmp_text op v _ s Hs).
Qed.

Lemma series_cmp_raise (op : Q -> Q -> bool) (s : Series) (v : Q) (e : exn) :
  series_cmp op s v = Raise e -> e = TypeError.
Proof.
  unfold series_cmp. destruct (is_numeric (s_dtype s)); [discriminate|].
  induction (s_values s) as [|c cs IH]; simpl; [discriminate|].
  destruct c as [|x|t]; simpl.
  - destruct (mapM (obj_cmp op v) cs); simpl; [discriminate|].
    intros H. injection H as <-. apply IH. reflexivity.
  - destruct (mapM (obj_cmp op v) cs); simpl; [discriminate|].
    intros H. injection H as <-. apply IH. reflexivity.
  - intros H. injection H as <-. reflexivity.
Qed.

Lemma apply_rule_raise (df : DataFrame) (item : string * Rule) (v : DataFrame)
  (e : exn) :
  apply_rule df item v = Raise e -> e = TypeError.
Proof.
  destruct item as [col rule]. unfold apply_rule.
  destruct (negb (mem col (columns df))); [discriminate|].
  unfold check_min, check_max, check_allowed, series_lt, series_gt.
  destruct (rule_min rule) as [lo|].
  - destruct (series_cmp Qlt_bool (getcol df col) lo) as [m1|e1] eqn:S1;
      cbn [bind].
    + destruct (rule_max rule) as [hi|].
      * destruct (series_cmp Qgt_bool (getcol df col) hi) as [m2|e2] eqn:S2;
          cbn [bind].
        -- destruct (rule_allowed rule); discriminate.
        -- intros H. injection H as <-. apply (series_cmp_raise _ _ _ _ S2).
      * cbn [bind]. destruct (rule_allowed rule); discriminate.
    + intros H. injection H as <-. apply (series_cmp_raise _ _ _ _ S1).
  - cbn [bind]. destruct (rule_max rule) as [hi|].
    + destruct (series_cmp Qgt_bool (getcol df col) hi) as [m2|e2] eqn:S2;
        cbn [bind].
      * destruct (rule_allowed rule); discriminate.
      * intros H. injection H as <-. apply (series_cmp_raise _ _ _ _ S2).
    + cbn [bind]. destruct (rule_allowed rule); discriminate.
Qed.

Lemma apply_rule_text (df : DataFrame) (item : string * Rule) (v : DataFrame) :
  bounds_text_column df item -> apply_rule df item v = Raise TypeError.
Proof.
  destruct item as [col rule]. intros (M & Hd & [s Hs] & Hb). simpl in *.
  unfold apply_rule. rewrite M. cbn [negb].
  unfold check_min, check_max, series_lt, series_gt.
  destruct (rule_min rule) as [lo|].
  - rewrite (series_cmp_text _ df col lo s Hd Hs). reflexivity.
  - cbn [bind]. destruct (rule_max rule) as [hi|].
    + rewrite (series_cmp_text _ df col hi s Hd Hs). reflexivity.
    + destruct Hb as [Hb|Hb]; contradiction.
Qed.

Lemma apply_rules_text (df : DataFrame) (rules : RuleSet) (v : DataFrame) :
  (exists item, In item rules /\ bounds_text_column df item) ->
  foldM (apply_rule df) rules v = Raise TypeError.
Proof.
  revert v. induction rules as [|item rules IH]; intros v [it [Hin Hb]];
    [contradiction|].
  cbn [foldM]. destruct Hin as [->|Hin].
  - rewrite (apply_rule_text df it v Hb). reflexivity.
  - destruct (apply_rule df item v) as [v1|e] eqn:A; cbn [bind].
    + apply IH. exists it. split; assumption.
    + rewrite (apply_rule_raise _ _ _ _ A). reflexivity.
Qed.

(** X6.  A [min] or [max] rule on a text column that holds at least one
    value cannot be evaluated: [apply_json_rules] raises [TypeError], whatever
    the other rules are, and so a run that loads such a rule set raises. *)
Theorem bound_on_text_column_raises
  (E : Env) (g : N) (raw : RawTable) (p : string) (df : DataFrame)
  (rules : RuleSet) :
  (exists item, In item rules /\ bounds_text_column df item) ->
  apply_json_rules df rules = Raise TypeError
  /\ (load_dataset E raw = Ok df ->
      rules_available E (Some p) = true -> json_load E p = Ok rules ->
      raises (validate_dataset E g raw (Some p))).
Proof.
  intros H. pose proof (apply_rules_text df rules empty_frame H) as A.
  split; [exact A|]. intros L Ha Hj.
  unfold validate_dataset. rewrite L. cbn [bind]. apply raises_bind.
  unfold run_detectors.
  apply raises_bind_all. intros s3. apply raises_bind_all. intros s4.
  apply raises_bind_all. intros s5. apply raises_bind_all. intros s6.
  unfold json_rules. rewrite Ha, Hj. cbn [bind].
  unfold apply_json_rules. rewrite A. exists TypeError. reflexivity.
Qed.

Lemma bound_on_text_column_raises_witness :
  apply_json_rules
    (Frame ["name"; "price"] [Object; Int64]
           [Row 0 [Text "a"; Num (10 # 1)%Q]; Row 1 [NA; Num (-1 # 1)%Q]])
    name_rules
  = Raise TypeError.
Proof.
  refine (proj1 (bound_on_text_column_raises
                   example_env 0%N single_row_table "rules.json" _ name_rules
                   _)).
  exists ("name", MkRule None (Some (10 # 1)%Q) None). split.
  - right. left. reflexivity.
  - split; [reflexivity|]. split; [reflexivity|]. split.
    + exists "a". left. reflexivity.
    + right. discriminate.
Defined.

(** ** The union of the two algorithms *)

Lemma cell_eqb_trans (a b c : cell) :
  cell_eqb a b = true -> cell_eqb b c = true -> cell_eqb a c = true.
Proof.
  destruct a, b, c; simpl; try discriminate; try reflexivity.
  - apply Qeq_bool_trans.
  - intros H1 H2. apply String.eqb_eq in H1, H2. subst. apply String.eqb_refl.
Qed.

Lemma cells_eqb_trans (u v w : list cell) :
  cells_eqb u v = true -> cells_eqb v w = true -> cells_eqb u w = true.
Proof.
  revert v w. induction u as [|a u IH]; intros [|b v] [|c w]; simpl;
    try discriminate; try reflexivity.
  intros H1 H2. apply andb_true_iff in H1, H2.
  destruct H1 as [A1 B1], H2 as [A2 B2].
  rewrite (cell_eqb_trans _ _ _ A1 A2), (IH _ _ B1 B2). reflexivity.
Qed.

Lemma existsb_eqb_app (v : list cell) (seen : list (list cell)) (w : list cell) :
  existsb (cells_eqb v) (seen ++ [w]) = existsb (cells_eqb v) seen || cells_eqb v w.
Proof. rewrite existsb_app. simpl. rewrite orb_false_r. reflexivity. Qed.

Lemma dedup_from {A : Type} (val : A -> list cell) (xs : list A)
  (seen : list (list cell)) :
  let kept := select (map negb (duplicated_from seen (map val xs))) xs in
  (forall k, In k kept ->
     In k xs /\ existsb (cells_eqb (val k)) seen = false)
  /\ distinct_values (map val kept)
  /\ (forall x, In x xs ->
        existsb (cells_eqb (val x)) seen = true
        \/ exists k, In k kept /\ cells_eqb (val x) (val k) = true).
Proof.
  revert seen. induction xs as [|x xs IH]; intros seen; cbn zeta.
  - simpl. split; [intros k []|]. split; [exact I | intros y []].
  - specialize (IH (seen ++ [val x])). cbn zeta in IH.
    destruct IH as (K & D & C).
    cbn [map duplicated_from select].
    set (kept' := select (map negb (duplicated_from (seen ++ [val x])
                                                    (map val xs))) xs) in *.
    destruct (existsb (cells_eqb (val x)) seen) eqn:Dx; cbn [negb].
    + split; [|split].
      * intros k Hk. destruct (K k Hk) as [Hin Hs].
        rewrite existsb_eqb_app in Hs. apply orb_false_iff in Hs.
        split; [right; exact Hin | apply Hs].
      * exact D.
      * intros y [<-|Hy]; [left; exact Dx|].
        destruct (C y Hy) as [Hs|Hk]; [|right; exact Hk].
        rewrite existsb_eqb_app in Hs. apply orb_true_iff in Hs.
        destruct Hs as [Hs|Hs]; [left; exact Hs|]. left.
        apply existsb_exists in Dx. destruct Dx as [s [Hs1 Hs2]].
        apply existsb_exists. exists s. split; [exact Hs1|].
        apply (cells_eqb_trans _ _ _ Hs Hs2).
    + split; [|split].
      * intros k [<-|Hk]; [split; [left; reflexivity | exact Dx]|].
        destruct (K k Hk) as [Hin Hs].
        rewrite existsb_eqb_app in Hs. apply orb_false_iff in Hs.
        split; [right; exact Hin | apply Hs].
      * cbn [map distinct_values]. split; [|exact D].
        intros w Hw. apply in_map_iff in Hw. destruct Hw as [k [<- Hk]].
        destruct (K k Hk) as [_ Hs].
        rewrite existsb_eqb_app in Hs. apply orb_false_iff in Hs.
        rewrite cells_eqb_sym. apply Hs.
      * intros y [<-|Hy].
        -- right. exists x. split; [left; reflexivity | apply cells_eqb_refl].
        -- destruct (C y Hy) as [Hs|[k [Hk Hv]]].
           ++ rewrite existsb_eqb_app in Hs. apply orb_true_iff in Hs.
              destruct Hs as [Hs|Hs]; [left; exact Hs|].
              right. exists x. split; [left; reflexivity | exact Hs].
           ++ right. exists k. split; [right; exact Hk | exact Hv].
Qed.

Lemma drop_duplicates_spec (f : DataFrame) :
  distinct_values (map (values f) (rows (drop_duplicates f)))
  /\ (forall k, In k (rows (drop_duplicates f)) -> In k (rows f))
  /\ (forall x, In x (rows f) ->
        exists k, In k (rows (drop_duplicates f))
                  /\ cells_eqb (values f x) (values f k) = true).
Proof.
  destruct (dedup_from (values f) (rows f) []) as (K & D & C).
  unfold drop_duplicates, duplicated. cbn [rows loc_mask].
  split; [exact D|]. split.
  - intros k Hk. apply (K k Hk).
  - intros x Hx. destruct (C x Hx) as [H|H]; [discriminate | exact H].
Qed.

Lemma concat_columns_same (f g : DataFrame) :
  columns g = columns f -> concat_columns f g = columns f.
Proof.
  intros H. unfold concat_columns. rewrite H.
  rewrite (filter_nil (fun c => negb (mem c (columns f)))).
  - apply app_nil_r.
  - intros c Hc. apply mem_true_iff in Hc. rewrite Hc. reflexivity.
Qed.

Lemma values_reindex_same (cols : list string) (f : DataFrame) (r : row) :
  columns f = cols ->
  map (fun c => cell_of cols c (cells (reindex cols cols r))) cols = values f r.
Proof.
  intros H. unfold values. rewrite H. apply map_ext_in. intros c Hc.
  simpl. apply cell_of_map. apply mem_true_iff. exact Hc.
Qed.

(** X7.  The anomaly detector returns the union of the rows the two
    algorithms label -1, without repetition of values: every row of the
    result is one of them, every one of them has its values in the result,
    and no two rows of the result have the same values, so rows that differ
    by their index only appear once. *)
Theorem anomalies_are_a_union_without_repetition
  (E : Env) (g : N) (ml_df out : DataFrame) (l1 l2 : list Z) :
  IsolationForest_fit_predict E contamination (Some random_state) g
                              (to_numpy ml_df) = Ok l1 ->
  LocalOutlierFactor_fit_predict E n_neighbors contamination (to_numpy ml_df)
  = Ok l2 ->
  ml_outliers E g ml_df = Ok out ->
  distinct_values (map (values out) (rows out))
  /\ (forall r, In r (algorithm_outliers ml_df l1 l2) ->
        exists r', In r' (rows out)
                   /\ cells_eqb (values ml_df r) (values out r') = true)
  /\ (forall r', In r' (rows out) ->
        exists r, In r (algorithm_outliers ml_df l1 l2)
                  /\ index r' = index r /\ values out r' = values ml_df r).
Proof.
  intros H1 H2 H. unfold ml_outliers, getitem_mask in H.
  rewrite H1 in H. cbn [bind] in H.
  destruct (length (is_outlier_label l1) =? _); cbn [bind] in H;
    [|discriminate].
  rewrite H2 in H. cbn [bind] in H.
  destruct (length (is_outlier_label l2) =? _); cbn [bind] in H;
    [|discriminate].
  injection H as <-.
  set (iso := loc_mask (is_outlier_label l1) ml_df).
  set (lof := loc_mask (is_outlier_label l2) ml_df).
  assert (Hcols : concat_columns iso lof = columns ml_df)
    by (apply (concat_columns_same iso lof); reflexivity).
  assert (Hv : forall r, values (concat iso lof)
                           (reindex (columns ml_df) (columns ml_df) r)
                         = values ml_df r).
  { intros r. unfold values at 1. rewrite columns_concat, Hcols.
    apply values_reindex_same. reflexivity. }
  assert (Hrows : rows (concat iso lof)
                  = map (reindex (columns ml_df) (columns ml_df))
                        (algorithm_outliers ml_df l1 l2)).
  { rewrite rows_concat, Hcols. unfold algorithm_outliers.
    rewrite map_app. reflexivity. }
  destruct (drop_duplicates_spec (concat iso lof)) as (D & K & C).
  split; [exact D|]. split.
  - intros r Hr.
    destruct (C (reindex (columns ml_df) (columns ml_df) r)) as [k [Hk Hk']].
    { rewrite Hrows. apply in_map. exact Hr. }
    exists k. split; [exact Hk|]. rewrite Hv in Hk'. exact Hk'.
  - intros r' Hr'. apply K in Hr'. rewrite Hrows in Hr'.
    apply in_map_iff in Hr'. destruct Hr' as [r [<- Hr]].
    exists r. split; [exact Hr|]. split; [reflexivity|]. apply Hv.
Qed.

Lemma anomalies_are_a_union_without_repetition_witness :
  exists out,
    ml_outliers example_env 0%N twin_frame = Ok out
    /\ rows out = [Row 1 [Num (500 # 1)%Q]]
    /\ distinct_values (map (values out) (rows out))
    /\ forall r, In r (rows twin_frame) -> index r <> 0 ->
         exists r', In r' (rows out)
                    /\ cells_eqb (values twin_frame r) (values out r') = true.
Proof.
  eexists. split; [vm_compute; reflexivity|]. split; [reflexivity|].
  edestruct (anomalies_are_a_union_without_repetition
               example_env 0%N twin_frame) as (D & C & _).
  - vm_compute. reflexivity.
  - vm_compute. reflexivity.
  - vm_compute. reflexivity.
  - split; [exact D|]. intros r Hr Hi. apply C.
    simpl in Hr. destruct Hr as [<-|[<-|[<-|[]]]].
    + contradiction.
    + left. reflexivity.
    + right. left. reflexivity.
Defined.

(** ** The input of the anomaly detector *)

Lemma complete_numeric_copy_extensional (df : DataFrame) :
  extensional (complete_numeric_copy df).
Proof.
  intros i f1 f2 H (r0 & Hr & Hi & F). exists r0.
  split; [exact Hr|]. split; [exact Hi|]. intros c Hc.
  destruct (F c Hc) as [F1 F2]. split; [exact F1|]. rewrite <- H. exact F2.
Qed.

Lemma dropna_rows (f : DataFrame) (r : row) :
  In r (rows (dropna f)) ->
  In r (rows f) /\ existsb isnull (values f r) = false.
Proof.
  unfold dropna. cbn [rows loc_mask].
  rewrite (select_map_filter (fun r => negb (existsb isnull (values f r)))).
  intros H. apply filter_In in H. destruct H as [H1 H2].
  split; [exact H1|]. apply negb_true_iff in H2. exact H2.
Qed.

Lemma ml_input_complete (df : DataFrame) :
  all_rows (complete_numeric_copy df)
           (ml_input df (select_dtypes is_numeric df)).
Proof.
  intros r Hr. unfold ml_input in Hr. apply dropna_rows in Hr.
  destruct Hr as [Hr Hn]. cbn [rows select_columns] in Hr.
  apply in_map_iff in Hr. destruct Hr as [r0 [<- Hr0]].
  exists r0. split; [exact Hr0|]. split; [reflexivity|].
  intros c Hc. apply mem_true_iff in Hc.
  assert (Hcell : cell_at (ml_input df (select_dtypes is_numeric df))
                          (reindex (columns df) (select_dtypes is_numeric df) r0)
                          c
                  = cell_at df r0 c).
  { unfold cell_at. simpl. apply cell_of_map. exact Hc. }
  split; [|exact Hcell].
  intros N. rewrite <- Hcell in N.
  assert (Hex : existsb isnull
                  (values (select_columns df (select_dtypes is_numeric df))
                          (reindex (columns df) (select_dtypes is_numeric df)
                                   r0)) = true).
  { apply existsb_exists. exists NA. split; [|reflexivity].
    unfold values. apply in_map_iff. exists c. split.
    - exact N.
    - apply mem_true_iff. exact Hc. }
  rewrite Hex in Hn. discriminate.
Qed.

(** X8.  The anomaly detector flags rows of the dataset whose numeric values
    are all present: each row of its result carries, under every numeric
    column, the value of a dataset row with the same index label, and that
    value is not missing. *)
Theorem anomalies_have_complete_numeric_values
  (E : Env) (g : N) (df out : DataFrame) :
  ml_outliers E g (ml_input df (select_dtypes is_numeric df)) = Ok out ->
  all_rows (complete_numeric_copy df) out.
Proof.
  intros H. unfold ml_outliers, getitem_mask in H.
  destruct (IsolationForest_fit_predict E _ _ g _) as [l1|e]; simpl in H;
    [|discriminate].
  destruct (length (is_outlier_label l1) =? _); simpl in H; [|discriminate].
  destruct (LocalOutlierFactor_fit_predict E _ _ _) as [l2|e]; simpl in H;
    [|discriminate].
  destruct (length (is_outlier_label l2) =? _); simpl in H; [|discriminate].
  injection H as <-. unfold drop_duplicates. apply all_rows_loc_mask.
  apply all_rows_concat;
    [apply complete_numeric_copy_extensional | |];
    apply all_rows_loc_mask; apply ml_input_complete.
Qed.

Lemma anomalies_have_complete_numeric_values_witness :
  exists out,
    ml_outliers example_env 0%N
                (ml_input gap_frame (select_dtypes is_numeric gap_frame))
    = Ok out
    /\ map index (rows out) = [2]
    /\ all_rows (complete_numeric_copy gap_frame) out.
Proof.
  eexists. split; [vm_compute; reflexivity|]. split; [reflexivity|].
  apply (anomalies_have_complete_numeric_values example_env 0%N gap_frame).
  vm_compute. reflexivity.
Defined.

(** ** The normalised dataset *)







(** ** Invalid categories and missing values *)

Lemma filter_length_le {A : Type} (p q : A -> bool) (l : list A) :
  (forall a, In a l -> p a = true -> q a = true) ->
  length (filter p l) <= length (filter q l).
Proof.
  induction l as [|a l IH]; intros H; simpl; [lia|].
  assert (IH' : length (filter p l) <= length (filter q l))
    by (apply IH; intros b Hb; apply H; right; exact Hb).
  destruct (p a) eqn:P.
  - rewrite (H a (or_introl eq_refl) P). simpl. lia.
  - destruct (q a); simpl; lia.
Qed.

Lemma null_cell_has_missing (df : DataFrame) (col : string) (r : row) :
  In col (columns df) -> isnull (cell_at df r col) = true ->
  has_missing df r = true.
Proof.
  intros Hc Hn. unfold has_missing. apply existsb_exists.
  exists (cell_at df r col). split; [|exact Hn].
  unfold values. apply in_map_iff. exists col. split; [reflexivity | exact Hc].
Qed.

(** X10.  The invalid-category detector of a text column flags only rows the
    missing-value detector flags as well, so the count of Invalid Categories
    of a column never exceeds the count of Missing Values. *)
Theorem invalid_categories_are_missing_values (df : DataFrame) (col : string) :
  In col (select_dtypes is_object df) ->
  (forall r, In r (rows_where df col isnull) -> In r (rows (missing_rows df)))
  /\ invalid_count df col <= len (missing_rows df).
Proof.
  intros Hc. unfold select_dtypes in Hc. apply In_combine_fst in Hc.
  split.
  - intros r Hr. rewrite missing_rows_filter. unfold rows_where in Hr.
    apply filter_In in Hr. destruct Hr as [Hr Hn]. apply filter_In.
    split; [exact Hr | apply (null_cell_has_missing df col r Hc Hn)].
  - unfold invalid_count, len. rewrite select_column, missing_rows_filter.
    unfold rows_where. apply filter_length_le.
    intros r _ Hn. apply (null_cell_has_missing df col r Hc Hn).
Qed.

Lemma invalid_categories_are_missing_values_witness :
  invalid_count gap_frame "name" <= len (missing_rows gap_frame).
Proof.
  apply (proj2 (invalid_categories_are_missing_values gap_frame "name"
                  (or_introl eq_refl))).
Defined.

(** ** Small samples have no outliers *)













(** ** The dashboard *)

Lemma dict_set_not_nil (k : string) (v : nat) (d : Summary) :
  dict_set k v d <> [].
Proof.
  destruct d as [|[k' v'] d]; simpl; [discriminate|].
  destruct (String.eqb k k'); discriminate.
Qed.

Lemma fold_add_not_nil (cats d : Summary) :
  d <> [] -> fold_left add_entry cats d <> [].
Proof.
  revert d. induction cats as [|kv cats IH]; intros d Hd; simpl; [exact Hd|].
  apply IH. unfold add_entry. destruct (positive kv); [|exact Hd].
  apply dict_set_not_nil.
Qed.

Lemma fold_add_nil (cats : Summary) :
  fold_left add_entry cats [] = [] -> total cats = 0.
Proof.
  induction cats as [|[k n] cats IH]; intros H; [reflexivity|].
  simpl in H. unfold add_entry at 2 in H. unfold positive in H. simpl in H.
  destruct n as [|n].
  - simpl in H. unfold total in *. simpl. apply IH. exact H.
  - simpl in H. exfalso. revert H. apply fold_add_not_nil. discriminate.
Qed.

(** What a returned run gives to the dashboard. *)
Lemma returned_run (E : Env) (g : N) (raw : RawTable) (rp : option string)
  (bad : DataFrame) (report : list section) (summary : Summary) :
  validate_dataset E g raw rp = Ok (bad, report, summary) ->
  rows bad <> []
  /\ mem "issue" (columns bad) = true
  /\ Forall (fun c => is_text c = true) (column bad "issue")
  /\ summary <> [].
Proof.
  intros H. apply validate_dataset_Ok in H.
  destruct H as (df & jr & st & L & D & R & -> & ->).
  destruct (load_dataset_columns _ _ _ L) as [Hc Hne].
  assert (Hc' : columns df <> []) by (rewrite Hc; exact Hne).
  assert (Hr : rows (bad_rows st) <> []).
  { intros N. rewrite (nothing_flagged _ _ _ _ _ _ D N) in R.
    discriminate R. }
  split; [exact Hr|].
  split; [apply (issue_column_present _ _ _ _ _ _ Hc' D Hr)|].
  split; [apply (issue_cells_text _ _ _ _ _ _ Hc' D)|].
  intros N. rewrite (run_detectors_summary _ _ _ _ _ _ Hc' D) in N.
  apply fold_add_nil in N.
  rewrite <- (run_detectors_len _ _ _ _ _ _ Hc' D) in N.
  unfold len in N. destruct (rows (bad_rows st)); [contradiction|discriminate].
Qed.

Lemma mapM_map_Ok {A B C : Type} (f : B -> result C) (g : A -> B)
  (h : A -> C) (l : list A) :
  (forall a, f (g a) = Ok (h a)) -> mapM f (map g l) = Ok (map h l).
Proof.
  intros H. induction l as [|a l IH]; simpl; [reflexivity|].
  rewrite H, IH. reflexivity.
Qed.

Lemma preview_issues_Ok (bad : DataFrame) :
  rows bad <> [] -> mem "issue" (columns bad) = true ->
  preview_issues bad
  = Ok (Expanders (map (group_expander bad)
                       (sorted (unique (text_labels (column bad "issue")))))).
Proof.
  intros Hr M. unfold preview_issues.
  rewrite (empty_len bad (mem_columns_nonempty bad "issue" M)).
  unfold len. destruct (rows bad) as [|r rs] eqn:R; [contradiction|].
  cbn [length Nat.eqb]. unfold groupby, getitem. rewrite M. cbn [bind].
  rewrite (mapM_map_Ok _ _ (group_expander bad)).
  - reflexivity.
  - intros k. cbn [snd fst]. unfold drop_column. cbn [columns loc_mask].
    rewrite M. cbn [bind]. reflexivity.
Qed.

(** X12.  Whenever [validate_dataset] returns, the dashboard goes through
    and shows results: summary cards with the issue counts, a preview with
    expanders and a CSV download.  Its messages for an empty result, "No
    issues found" and "No issues to preview", are never shown, since a run
    that flags nothing does not return. *)
Theorem dashboard_shows_issues_or_fails
  (E : Env) (g : N) (raw : RawTable) (bad : DataFrame)
  (report : list section) (summary : Summary) :
  validate_dataset E g raw
    (if path_exists E rules_file then Some rules_file else None)
  = Ok (bad, report, summary) ->
  exists groups csv,
    dashboard E g raw
    = Ok (MkPage (Cards summary) (Expanders groups) (Some csv)).
Proof.
  intros V. destruct (returned_run _ _ _ _ _ _ _ V) as (Hr & M & T & Hs).
  unfold dashboard. rewrite V. cbn [bind].
  rewrite (preview_issues_Ok bad Hr M). cbn [bind].
  unfold download_csv, drop_column.
  rewrite (empty_len bad (mem_columns_nonempty bad "issue" M)).
  unfold len. destruct (rows bad) as [|r rs] eqn:R; [contradiction|].
  cbn [length Nat.eqb negb]. rewrite M. cbn [bind].
  destruct summary as [|kv summary]; [contradiction|].
  eexists. eexists. reflexivity.
Qed.

Lemma dashboard_shows_issues_or_fails_witness :
  exists groups csv,
    dashboard example_env 0%N shop_table
    = Ok (MkPage (Cards [("Missing Values", 2); ("Duplicate Rows", 2);
                         ("Negative Values (price)", 1);
                         ("Invalid Categories (name)", 2);
                         ("ML Anomalies", 2)])
                 (Expanders groups) (Some csv)).
Proof.
  eapply (dashboard_shows_issues_or_fails example_env 0%N shop_table).
  vm_compute. reflexivity.
Defined.

(** *** The groups of the preview *)







Lemma sum_over_insert (f : string -> nat) (s : string) (l : list string) :
  sum_over f (insert_sorted s l) = f s + sum_over f l.
Proof.
  unfold sum_over. induction l as [|y l IH]; simpl; [reflexivity|].
  destruct (String.leb s y); simpl; [reflexivity|]. rewrite IH. lia.
Qed.

Lemma sum_over_sorted (f : string -> nat) (l : list string) :
  sum_over f (sorted l) = sum_over f l.
Proof.
  induction l as [|y l IH]; simpl; [reflexivity|].
  rewrite sum_over_insert, IH. reflexivity.
Qed.












(** The page the dashboard builds when the run has returned. *)
Lemma dashboard_page (E : Env) (g : N) (raw : RawTable) (bad : DataFrame)
  (report : list section) (summary : Summary) :
  validate_dataset E g raw
    (if path_exists E rules_file then Some rules_file else None)
  = Ok (bad, report, summary) ->
  dashboard E g raw
  = Ok (MkPage (Cards summary)
          (Expanders (map (group_expander bad)
                        (sorted (unique (text_labels (column bad "issue"))))))
          (Some (to_csv (without bad "issue")))).
Proof.
  intros V. destruct (returned_run _ _ _ _ _ _ _ V) as (Hr & M & T & Hs).
  unfold dashboard. rewrite V. cbn [bind].
  rewrite (preview_issues_Ok bad Hr M). cbn [bind].
  unfold download_csv, drop_column.
  rewrite (empty_len bad (mem_columns_nonempty bad "issue" M)).
  unfold len. destruct (rows bad) as [|r rs] eqn:R; [contradiction|].
  cbn [length Nat.eqb negb]. rewrite M. cbn [bind].
  destruct summary as [|kv summary]; [contradiction|]. reflexivity.
Qed.



(** *** The CSV download *)

Lemma to_csv_without (f : DataFrame) (c0 : string) :
  csv_lines (to_csv (without f c0))
  = map (fun r => map (cell_at f r) (csv_header (to_csv (without f c0))))
        (rows f).
Proof.
  unfold to_csv, without. cbn [csv_lines csv_header columns rows].
  rewrite map_map. apply map_ext. intros r. unfold values. cbn [columns].
  apply map_ext_in. intros c Hc. unfold cell_at, reindex. cbn [cells].
  apply cell_of_map. apply mem_true_iff. exact Hc.
Qed.

Lemma line_without (f : DataFrame) (c0 : string) (r : row) (c : string) :
  c <> c0 ->
  cell_of (filter (fun x => negb (String.eqb x c0)) (columns f)) c
          (map (cell_at f r)
               (filter (fun x => negb (String.eqb x c0)) (columns f)))
  = cell_at f r c.
Proof.
  intros Hne.
  destruct (mem c (filter (fun x => negb (String.eqb x c0)) (columns f)))
    eqn:M.
  - apply cell_of_map. exact M.
  - rewrite cell_of_absent by exact M. rewrite mem_filter in M.
    destruct (String.eqb c c0) eqn:Ec;
      [apply String.eqb_eq in Ec; contradiction|].
    cbn [negb] in M. rewrite andb_true_r in M.
    unfold cell_at. rewrite cell_of_absent by exact M. reflexivity.
Qed.

(** X14.  The CSV download of the dashboard holds a line for each flagged
    row, in their order, a row once for each time it was flagged, with its
    values in the columns other than [issue]: neither the label nor the index
    of the row is in the file.  Each line holds the values of a row of the
    dataset, in all columns or, for a row of the anomaly detector, in the
    numeric columns only. *)
Theorem csv_download_holds_flagged_rows_unlabelled
  (E : Env) (g : N) (raw : RawTable) (df bad : DataFrame)
  (report : list section) (summary : Summary) (p : page) :
  load_dataset E raw = Ok df ->
  validate_dataset E g raw
    (if path_exists E rules_file then Some rules_file else None)
  = Ok (bad, report, summary) ->
  dashboard E g raw = Ok p ->
  exists header lines,
    issues_csv p = Some (MkCsv header lines)
    /\ header = filter (fun c => negb (String.eqb c "issue")) (columns bad)
    /\ lines = map (fun r => map (cell_at bad r) header) (rows bad)
    /\ Forall (fun line =>
                 exists r0, In r0 (rows df)
                   /\ (full_copy df r0 (fun c => cell_of header c line)
                       \/ numeric_copy df r0 (fun c => cell_of header c line)))
              lines.
Proof.
  intros L V P. rewrite (dashboard_page _ _ _ _ _ _ V) in P.
  injection P as <-.
  exists (csv_header (to_csv (without bad "issue"))),
         (csv_lines (to_csv (without bad "issue"))).
  split; [reflexivity|]. split; [reflexivity|].
  split; [apply (to_csv_without bad "issue")|].
  rewrite (to_csv_without bad "issue").
  change (csv_header (to_csv (without bad "issue")))
    with (filter (fun c => negb (String.eqb c "issue")) (columns bad)).
  apply Forall_forall. intros line Hl. apply in_map_iff in Hl.
  destruct Hl as [r [<- Hin]].
  apply validate_dataset_Ok in V.
  destruct V as (df' & jr & st & L' & D & R & -> & ->).
  rewrite L in L'. injection L' as <-.
  destruct (flagged_rows_are_traced _ _ _ _ _ _ D r Hin)
    as (r0 & H0 & Hi0 & Hcopy).
  exists r0. split; [exact H0|].
  destruct Hcopy as [F|[_ F]]; [left|right]; intros c Hne;
    rewrite (line_without _ _ r c Hne); apply F; exact Hne.
Qed.

Lemma csv_download_holds_flagged_rows_unlabelled_witness :
  exists df bad report summary p,
    load_dataset example_env shop_table = Ok df
    /\ validate_dataset example_env 0%N shop_table None
       = Ok (bad, report, summary)
    /\ dashboard example_env 0%N shop_table = Ok p
    /\ exists header lines,
         issues_csv p = Some (MkCsv header lines)
         /\ header
            = filter (fun c => negb (String.eqb c "issue")) (columns bad)
         /\ lines = map (fun r => map (cell_at bad r) header) (rows bad)
         /\ Forall (fun line =>
                      exists r0, In r0 (rows df)
                        /\ (full_copy df r0 (fun c => cell_of header c line)
                            \/ numeric_copy df r0
                                 (fun c => cell_of header c line)))
                   lines.
Proof.
  eexists. eexists. eexists. eexists. eexists.
  split; [vm_compute; reflexivity|].
  split; [vm_compute; reflexivity|].
  split; [vm_compute; reflexivity|].
  eapply (csv_download_holds_flagged_rows_unlabelled
            example_env 0%N shop_table);
    vm_compute; reflexivity.
Defined.

(** ** The row counts of the report *)

Lemma prefix_app_self (pat y : string) : String.prefix pat (pat ++ y) = true.
Proof.
  induction pat as [|a pat IH]; simpl; [destruct y; reflexivity|].
  destruct (ascii_dec a a) as [_|N]; [exact IH|contradiction].
Qed.

Lemma contains_prefix (pat s : string) :
  String.prefix pat s = true -> contains pat s = true.
Proof. intros H. destruct s; cbn [contains]; rewrite H; reflexivity. Qed.

Lemma contains_tail (pat : string) (a : ascii) (s : string) :
  contains pat s = true -> contains pat (String a s) = true.
Proof. intros H. cbn [contains]. rewrite H. apply orb_true_r. Qed.

Lemma contains_own (pat x y : string) : contains pat (x ++ pat ++ y) = true.
Proof.
  induction x as [|a x IH].
  - change (contains pat (pat ++ y) = true).
    apply contains_prefix. apply prefix_app_self.
  - change (contains pat (String a (x ++ pat ++ y)) = true).
    apply contains_tail. exact IH.
Qed.

Lemma contains_suffix (pat x : string) : contains pat (x ++ pat) = true.
Proof.
  pose proof (contains_own pat x "") as H.
  replace (pat ++ "")%string with pat in H; [exact H|].
  clear H. induction pat as [|a pat IH]; simpl; [reflexivity|].
  rewrite <- IH. reflexivity.
Qed.

Lemma straddles_tail (a : ascii) (pat y : string) :
  straddles pat y = true -> straddles (String a pat) y = true.
Proof.
  unfold straddles. simpl. intros H. rewrite H. apply orb_true_r.
Qed.

Lemma prefix_app (x pat y : string) :
  x <> ""%string -> String.prefix pat (x ++ y) = true ->
  String.prefix pat x = true \/ straddles pat y = true.
Proof.
  revert pat. induction x as [|a x IH]; intros pat Hx H; [contradiction|].
  destruct pat as [|b pat]; [left; reflexivity|].
  simpl in H. simpl. destruct (ascii_dec b a) as [_|_]; [|discriminate].
  destruct x as [|a' x].
  - simpl in H. destruct pat as [|c pat]; [left; reflexivity|].
    right. unfold straddles. simpl. simpl in H. rewrite H. reflexivity.
  - destruct (IH pat) as [P|S]; [discriminate|exact H|left; exact P|].
    right. apply straddles_tail. exact S.
Qed.

(** An occurrence of [pat] in [x ++ y] lies in [x], in [y], or across the
    two. *)
Lemma contains_app (pat x y : string) :
  contains pat (x ++ y) = true ->
  contains pat x = true \/ straddles pat y = true \/ contains pat y = true.
Proof.
  induction x as [|a x IH]; intros H.
  - right. right. exact H.
  - change (contains pat (String a (x ++ y)) = true) in H.
    cbn [contains] in H. apply orb_true_iff in H. destruct H as [H|H].
    + destruct (prefix_app (String a x) pat y) as [P|S];
        [discriminate|exact H| |].
      * left. apply contains_prefix. exact P.
      * right. left. exact S.
    + destruct (IH H) as [C|[S|C]].
      * left. apply contains_tail. exact C.
      * right. left. exact S.
      * right. right. exact C.
Qed.

Lemma contains_app_false (pat x y : string) :
  contains pat x = false -> straddles pat y = false ->
  contains pat y = false -> contains pat (x ++ y) = false.
Proof.
  intros Hx Hs Hy. destruct (contains pat (x ++ y)) eqn:C; [|reflexivity].
  destruct (contains_app _ _ _ C) as [H|[H|H]]; congruence.
Qed.

Lemma eqb_app_false (s x suf : string) :
  contains suf s = false -> String.eqb s (x ++ suf) = false.
Proof.
  intros H. destruct (String.eqb s (x ++ suf)) eqn:E; [|reflexivity].
  apply String.eqb_eq in E. subst s. rewrite contains_suffix in H.
  discriminate.
Qed.

Lemma label_count_app (p : string -> bool) (a b : list (nat * cell)) :
  label_count p (a ++ b) = label_count p a + label_count p b.
Proof. unfold label_count. rewrite filter_app, length_app. reflexivity. Qed.

Lemma label_count_labelled (p : string -> bool) (lbl : string) (rs : list row) :
  label_count p (labelled lbl rs) = if p lbl then length rs else 0.
Proof.
  unfold label_count, labelled. induction rs as [|r rs IH]; simpl.
  - destruct (p lbl); reflexivity.
  - destruct (p lbl); simpl; rewrite IH; reflexivity.
Qed.

Lemma length_labelled (lbl : string) (rs : list row) :
  length (labelled lbl rs) = length rs.
Proof. unfold labelled. apply length_map. Qed.

Lemma label_count_columns (p : string -> bool) (b : bool) (suf : string)
  (found : string -> list row) (cols : list string) :
  (forall c, In c cols -> p (c ++ suf)%string = b) ->
  label_count p (flat_map (fun c => labelled (c ++ suf) (found c)) cols)
  = if b
    then length (flat_map (fun c => labelled (c ++ suf) (found c)) cols)
    else 0.
Proof.
  intros H. induction cols as [|c cols IH]; simpl.
  - destruct b; reflexivity.
  - rewrite label_count_app, label_count_labelled, length_app, length_labelled.
    rewrite (H c (or_introl eq_refl)), IH.
    + destruct b; reflexivity.
    + intros c' Hc'. apply H. right. exact Hc'.
Qed.

Lemma label_count_rules (p : string -> bool) (df : DataFrame) (rules : RuleSet) :
  (forall c, In c (columns df) ->
             p (c ++ "_below_min")%string = false
             /\ p (c ++ "_above_max")%string = false
             /\ p (c ++ "_invalid_value")%string = false) ->
  label_count p (flat_map (rule_hits df) rules) = 0.
Proof.
  intros H. induction rules as [|[col rule] rules IH]; [reflexivity|].
  cbn [flat_map]. rewrite label_count_app, IH, Nat.add_0_r.
  unfold rule_hits. destruct (mem col (columns df)) eqn:M; [|reflexivity].
  apply mem_true_iff in M. destruct (H col M) as (H1 & H2 & H3).
  rewrite !label_count_app.
  destruct (rule_min rule), (rule_max rule), (rule_allowed rule);
    rewrite ?label_count_labelled, ?H1, ?H2, ?H3; reflexivity.
Qed.

Lemma label_count_json (p : string -> bool) (E : Env) (df : DataFrame)
  (rp : option string) :
  (forall c, In c (columns df) ->
             p (c ++ "_below_min")%string = false
             /\ p (c ++ "_above_max")%string = false
             /\ p (c ++ "_invalid_value")%string = false) ->
  label_count p (json_hits E df rp) = 0.
Proof.
  intros H. unfold json_hits. destruct rp as [path|]; [|reflexivity].
  destruct (rules_available E (Some path)); [|reflexivity].
  destruct (json_load E path) as [rules|e]; [|reflexivity].
  apply label_count_rules. exact H.
Qed.

Lemma label_count_ml (p : string -> bool) (E : Env) (g : N) (df : DataFrame) :
  label_count p (ml_hits E g df)
  = if p "ML_anomaly" then length (ml_hits E g df) else 0.
Proof.
  unfold ml_hits. destruct (_ && _); [|destruct (p _); reflexivity].
  destruct (ml_outliers E g _); [|destruct (p _); reflexivity].
  rewrite label_count_labelled, length_labelled. reflexivity.
Qed.

Lemma In_select_dtypes (p : dtype -> bool) (df : DataFrame) (c : string) :
  In c (select_dtypes p df) -> In c (columns df).
Proof. unfold select_dtypes. apply In_combine_fst. Qed.

Lemma section_count_generate (ttl : string) (f : DataFrame) (n : nat) :
  empty f = (len f =? 0) ->
  section_count (generate_html_section ttl f n) = len f.
Proof.
  intros He. unfold generate_html_section, section_count. rewrite He.
  destruct (len f =? 0) eqn:Z; cbn [shown_rows]; [|reflexivity].
  apply Nat.eqb_eq in Z. symmetry. exact Z.
Qed.

Lemma count_true_labels (p : string -> bool) (f : DataFrame) :
  count_true (map (fun c => match c with Text t => p t | _ => false end)
                  (column f "issue"))
  = label_count p (hits f).
Proof.
  unfold count_true, label_count, column, hits, cell_at.
  induction (rows f) as [|r rs IH]; simpl; [reflexivity|].
  destruct (cell_of (columns f) "issue" (cells r)) as [|q|t]; simpl;
    try exact IH.
  destruct (p t); simpl; rewrite IH; reflexivity.
Qed.

Lemma str_contains_mask (pat : string) (cs : list cell) :
  Forall (fun c => is_text c = true) cs ->
  str_contains pat cs
  = Ok (map (fun c => match c with Text t => contains pat t | _ => false end)
            cs).
Proof.
  unfold str_contains. induction cs as [|c cs IH]; intros H; [reflexivity|].
  apply Forall_cons_iff in H. destruct H as [Hc H].
  destruct c as [|q|t]; try discriminate. cbn [mapM map].
  rewrite (IH H). reflexivity.
Qed.

Lemma section_count_masked (ttl : string) (bad : DataFrame) (mask : list bool) :
  mem "issue" (columns bad) = true ->
  length mask = length (rows bad) ->
  section_count (generate_html_section ttl (loc_mask mask bad)
                                       (count_true mask))
  = count_true mask.
Proof.
  intros M L. rewrite section_count_generate.
  - unfold len. cbn [rows loc_mask]. apply select_length. exact L.
  - apply empty_len. cbn [columns loc_mask].
    apply (mem_columns_nonempty bad "issue" M).
Qed.

Lemma label_section_count (ttl pat : string) (bad : DataFrame) (s : section) :
  Forall (fun c => is_text c = true) (column bad "issue") ->
  label_section ttl pat bad = Ok s ->
  section_count s = label_count (contains pat) (hits bad).
Proof.
  intros T. unfold label_section, getitem.
  destruct (mem "issue" (columns bad)) eqn:M; cbn [bind]; [|discriminate].
  rewrite (str_contains_mask pat _ T). cbn [bind]. intros H. injection H as <-.
  rewrite section_count_masked.
  - apply count_true_labels.
  - exact M.
  - unfold column. rewrite !length_map. reflexivity.
Qed.

Lemma ml_section_count (bad : DataFrame) (s : section) :
  ml_section bad = Ok s ->
  section_count s = label_count (String.eqb "ML_anomaly") (hits bad).
Proof.
  unfold ml_section, getitem.
  destruct (mem "issue" (columns bad)) eqn:M; cbn [bind]; [|discriminate].
  intros H. injection H as <-. rewrite section_count_masked.
  - rewrite (map_ext (cell_eqb (Text "ML_anomaly"))
               (fun c => match c with
                         | Text t => String.eqb "ML_anomaly" t
                         | _ => false
                         end)) by (intros [|q|t]; reflexivity).
    apply count_true_labels.
  - exact M.
  - unfold column. rewrite !length_map. reflexivity.
Qed.

Lemma label_count_detector_hits (p : string -> bool) (b1 b2 bn bo bi bm : bool)
  (E : Env) (g : N) (df : DataFrame) (rp : option string) :
  p "missing" = b1 -> p "duplicate" = b2 -> p "ML_anomaly" = bm ->
  (forall c, In c (columns df) ->
             p (c ++ "_negative")%string = bn
             /\ p (c ++ "_outlier")%string = bo
             /\ p (c ++ "_invalid_category")%string = bi
             /\ p (c ++ "_below_min")%string = false
             /\ p (c ++ "_above_max")%string = false
             /\ p (c ++ "_invalid_value")%string = false) ->
  label_count p (detector_hits E g df rp)
  = (if b1 then length (missing_hits df) else 0)
    + (if b2 then length (duplicate_hits df) else 0)
    + (if bn then length (flat_map (negative_hits df)
                                   (select_dtypes is_numeric df)) else 0)
    + (if bo then length (flat_map (outlier_hits df)
                                   (select_dtypes is_numeric df)) else 0)
    + (if bi then length (flat_map (invalid_hits df)
                                   (select_dtypes is_object df)) else 0)
    + (if bm then length (ml_hits E g df) else 0).
Proof.
  intros H1 H2 Hm H. unfold detector_hits. rewrite !label_count_app.
  unfold missing_hits at 1, duplicate_hits at 1.
  rewrite !label_count_labelled, H1, H2, label_count_ml, Hm.
  rewrite (label_count_columns p bn "_negative"
             (fun c => rows_where df c (strictly_below 0%Q)))
    by (intros c Hc; apply (H c (In_select_dtypes _ _ _ Hc))).
  rewrite (label_count_columns p bo "_outlier"
             (fun c => filter (is_outlier df c) (rows df)))
    by (intros c Hc; apply (H c (In_select_dtypes _ _ _ Hc))).
  rewrite (label_count_columns p bi "_invalid_category"
             (fun c => rows_where df c isnull))
    by (intros c Hc; apply (H c (In_select_dtypes _ _ _ Hc))).
  rewrite label_count_json by (intros c Hc; apply (H c Hc)).
  unfold missing_hits, duplicate_hits. rewrite !length_labelled.
  fold (negative_hits df). fold (outlier_hits df). fold (invalid_hits df).
  lia.
Qed.

Lemma plain_names (cols : list string) (c : string) :
  forallb plain_name cols = true -> In c cols ->
  contains "_negative" c = false /\ contains "_outlier" c = false
  /\ contains "_invalid_category" c = false.
Proof.
  intros H Hc. rewrite forallb_forall in H. specialize (H c Hc).
  unfold plain_name in H. apply andb_true_iff in H. destruct H as [H H3].
  apply andb_true_iff in H. destruct H as [H1 H2].
  apply negb_true_iff in H1, H2, H3. auto.
Qed.

(** X15.  When no column name contains [_negative], [_outlier] or
    [_invalid_category], each of the seven sections of the report counts
    exactly the rows flagged by its own detector.  The condition is needed:
    the sections pick their rows by a substring of the label, so with a
    column named [is_outlier] the row flagged for a negative value is listed
    under "Outliers" as well, where no outlier was found. *)
Theorem report_sections_count_their_detectors
  (E : Env) (g : N) (raw : RawTable) (rp : option string)
  (df bad : DataFrame) (report : list section) (summary : Summary) :
  load_dataset E raw = Ok df ->
  forallb plain_name (columns df) = true ->
  validate_dataset E g raw rp = Ok (bad, report, summary) ->
  map section_count report
  = [length (missing_hits df);
     length (duplicate_hits df);
     length (flat_map (negative_hits df) (select_dtypes is_numeric df));
     length (flat_map (outlier_hits df) (select_dtypes is_numeric df));
     length (flat_map (invalid_hits df) (select_dtypes is_object df));
     length (ml_hits E g df);
     length (json_hits E df rp)]
  /\ exists bad' report' summary',
       validate_dataset example_env 0%N flag_table None
       = Ok (bad', report', summary')
       /\ hits bad' = [(0, Text "is_outlier_negative")]
       /\ summary' = [("Negative Values (is_outlier)", 1)]
       /\ map section_count report' = [0; 0; 1; 1; 0; 0; 0].
Proof.
  intros L P V. split.
  2:{ eexists. eexists. eexists. split; [vm_compute; reflexivity|].
      split; [|split]; vm_compute; reflexivity. }
  destruct (returned_run _ _ _ _ _ _ _ V) as (Hr & M & T & _).
  apply validate_dataset_Ok in V.
  destruct V as (df' & jr & st & L' & D & R & -> & _).
  rewrite L in L'. injection L' as <-.
  destruct (load_dataset_columns _ _ _ L) as [Hc Hne].
  assert (Hc' : columns df <> []) by (rewrite Hc; exact Hne).
  destruct (hits_in_detection_order E g df rp jr st Hc' D)
    as [Hh Hj].
  pose proof D as D'. apply run_detectors_stages in D'.
  destruct D' as (s3 & s4 & s5 & s6 & _ & _ & _ & _ & H7).
  apply json_rules_rows_empty in H7.
  unfold html_report in R.
  destruct (label_section "Negative Values" _ _) as [x3|e] eqn:E3;
    cbn [bind] in R; [|discriminate].
  destruct (label_section "Outliers" _ _) as [x4|e] eqn:E4;
    cbn [bind] in R; [|discriminate].
  destruct (label_section "Invalid Categories" _ _) as [x5|e] eqn:E5;
    cbn [bind] in R; [|discriminate].
  destruct (ml_section _) as [x6|e] eqn:E6; cbn [bind] in R; [|discriminate].
  injection R as <-. cbn [map].
  apply (label_section_count _ _ _ _ T) in E3, E4, E5.
  apply ml_section_count in E6. rewrite Hh in E3, E4, E5, E6.
  rewrite (label_count_detector_hits _ false false true false false false)
    in E3.
  2-4: reflexivity.
  2:{ intros c Hc0. destruct (plain_names _ c P Hc0) as (P1 & P2 & P3).
      split; [apply contains_suffix|].
      repeat split; apply contains_app_false; (exact P1 || reflexivity). }
  rewrite (label_count_detector_hits _ false false false true false false)
    in E4.
  2-4: reflexivity.
  2:{ intros c Hc0. destruct (plain_names _ c P Hc0) as (P1 & P2 & P3).
      split; [apply contains_app_false; (exact P2 || reflexivity)|].
      split; [apply contains_suffix|].
      repeat split; apply contains_app_false; (exact P2 || reflexivity). }
  rewrite (label_count_detector_hits _ false false false false true false)
    in E5.
  2-4: reflexivity.
  2:{ intros c Hc0. destruct (plain_names _ c P Hc0) as (P1 & P2 & P3).
      split; [apply contains_app_false; (exact P3 || reflexivity)|].
      split; [apply contains_app_false; (exact P3 || reflexivity)|].
      split; [apply contains_suffix|].
      repeat split; apply contains_app_false; (exact P3 || reflexivity). }
  rewrite (label_count_detector_hits _ false false false false false true)
    in E6.
  2-4: reflexivity.
  2:{ intros c _. repeat split; apply eqb_app_false; reflexivity. }
  cbv beta iota in E3, E4, E5, E6.
  rewrite E3, E4, E5, E6.
  rewrite !section_count_generate.
  - unfold missing_hits, duplicate_hits. rewrite !length_labelled.
    rewrite <- missing_rows_filter, <- Hj. unfold hits. rewrite length_map.
    unfold len, duplicates. cbn [rows loc_mask].
    repeat f_equal; lia.
  - exact H7.
  - apply empty_len. exact Hc'.
  - apply empty_len. exact Hc'.
Qed.

Lemma report_sections_count_their_detectors_witness :
  exists df bad report summary,
    load_dataset example_env shop_table = Ok df
    /\ validate_dataset example_env 0%N shop_table None
       = Ok (bad, report, summary)
    /\ map section_count report
       = [length (missing_hits df);
          length (duplicate_hits df);
          length (flat_map (negative_hits df) (select_dtypes is_numeric df));
          length (flat_map (outlier_hits df) (select_dtypes is_numeric df));
          length (flat_map (invalid_hits df) (select_dtypes is_object df));
          length (ml_hits example_env 0%N df);
          length (json_hits example_env df None)].
Proof.
  eexists. eexists. eexists. eexists.
  split; [vm_compute; reflexivity|].
  split; [vm_compute; reflexivity|].
  eapply proj1.
  eapply (report_sections_count_their_detectors example_env 0%N shop_table);
    vm_compute; reflexivity.
Defined.
